(** * Virtual Doctor: the agent pipeline of [interactive_app.py]

    A shallow embedding of the four-stage workflow (general doctor,
    diagnosis, medication, follow-up) and of the command-line menu.

    Conventions of the embedding.
    - A Python [str] is a list of Unicode code points ([list N]); [py]
      turns an ASCII literal of the source into such a list.
    - A Python [dict] holding the inputs of an agent is a [gmap]; the
      [results] dict of [run_workflow], whose insertion order is
      observable, is an insertion-ordered association list.
    - [Optional[str]] is [option str]: [None] is Python's [None].
    - Effects are threaded through a state-and-exception monad [M] over a
      [World]: the lines still to be read on standard input, the chunks
      written to standard output, and the trace of what was done with the
      remote model (agent constructions and model invocations).
    - The remote model is an opaque collaborator: two functions of the
      history, [model_init] and [model_invoke], fixed in a Section.
    - Logging goes to the logger's stream, not to standard output, and is
      left out of the world; the line logged for the API key is what
      [load_api_key] returns with the key.  The agents are modelled for a
      process in which the module-level check of the API key has passed. *)

From stdpp Require Import gmap list strings.
From Stdlib Require Import Ascii String NArith.

Local Open Scope N_scope.
Local Open Scope list_scope.

(** ** Python strings *)

Module PyStr.

Abbreviation str := (list N).

(** An ASCII literal of the source, as code points. *)
Definition py (s : string) : str :=
  map N_of_ascii (list_ascii_of_string s).

(** Truthiness of a [str]: the empty string is falsy. *)
Definition truthy (s : str) : bool :=
  match s with
  | [] => false
  | _ :: _ => true
  end.

(** [ch.isspace()] as CPython decides it for [str.strip()] without
    arguments. *)
Definition isspace (c : N) : bool :=
  ((9 <=? c) && (c <=? 13))
  || ((28 <=? c) && (c <=? 32))
  || (c =? 133) || (c =? 160) || (c =? 5760)
  || ((8192 <=? c) && (c <=? 8202))
  || (c =? 8232) || (c =? 8233) || (c =? 8239) || (c =? 8287)
  || (c =? 12288).

Fixpoint lstrip (s : str) : str :=
  match s with
  | [] => []
  | c :: s' => if isspace c then lstrip s' else s
  end.

Definition rstrip (s : str) : str := rev (lstrip (rev s)).

(** [s.strip()] *)
Definition strip (s : str) : str := rstrip (lstrip s).

(** [s.startswith(p)] *)
Fixpoint startswith (p s : str) : bool :=
  match p, s with
  | [], _ => true
  | _ :: _, [] => false
  | a :: p', b :: s' => (a =? b) && startswith p' s'
  end.

(** [needle in s] *)
Fixpoint contains (needle s : str) : bool :=
  startswith needle s ||
  match s with
  | [] => false
  | _ :: s' => contains needle s'
  end.

(** [a == b] on strings. *)
Fixpoint str_eqb (a b : str) : bool :=
  match a, b with
  | [], [] => true
  | x :: a', y :: b' => (x =? y) && str_eqb a' b'
  | _, _ => false
  end.

End PyStr.
Import PyStr.

(** ** Exceptions and results *)

(** The exception classes the program meets, all of them instances of
    [Exception]; [OtherException] stands for any other instance of it.
    What is not an instance of [Exception] (an interrupt from the keyboard,
    an exit of the interpreter) is not a failure of the program or of the
    provider and is not modelled. *)
Inductive exn : Type :=
  | ResourceExhausted
  | Forbidden
  | KeyError
  | ValueError
  | AttributeError
  | EOFError
  | OtherException.

Inductive result (A : Type) : Type :=
  | Ok (a : A)
  | Raise (e : exn).
Arguments Ok {A} a.
Arguments Raise {A} e.

Definition result_map {A B : Type} (f : A -> B) (r : result A) : result B :=
  match r with
  | Ok a => Ok (f a)
  | Raise e => Raise e
  end.

(** ** Prompt templates *)

(** The four roles, [GeneralDoctor], [Diagnosis], [Medication] and
    [FollowUp]; [create_prompt_template] has a template for no other role
    string, so that no agent of another role is ever constructed. *)
Inductive Role : Type :=
  | GeneralDoctor
  | Diagnosis
  | Medication
  | FollowUp.

Module Template.

Definition lbrace : N := 123.
Definition rbrace : N := 125.

(** A plain replacement-field name is an identifier: a letter or an
    underscore, then letters, digits and underscores. *)
Definition ident_start (c : N) : bool :=
  ((65 <=? c) && (c <=? 90)) || (c =? 95) || ((97 <=? c) && (c <=? 122)).

Definition ident_char (c : N) : bool :=
  ident_start c || ((48 <=? c) && (c <=? 57)).

Definition identifier (name : str) : bool :=
  match name with
  | [] => false
  | c :: name' => ident_start c && forallb ident_char name'
  end.

(** [PromptTemplate.format] called with keyword arguments on the template
    text, which is [str.format] with keyword arguments only: [{{] and [}}]
    are escaped braces, [{name}] is replaced by [kwargs[name]] and a missing
    name raises [KeyError].  The values are strings, so a field is replaced
    by its text as it is.  The four templates use fields [{name}] with an
    identifier for name only; any other field (a conversion, a format spec,
    an attribute, an index, a number) is outside this model and raises
    [ValueError] here.  [field] is [Some name] while reading a field whose
    name so far is [name]. *)
Fixpoint format_from (kwargs : gmap str str) (s : str) (field : option str)
  : result str :=
  match s, field with
  | [], None => Ok []
  | [], Some _ => Raise ValueError
  | c :: s', None =>
      if c =? lbrace then
        match s' with
        | c' :: s'' =>
            if c' =? lbrace then result_map (cons lbrace) (format_from kwargs s'' None)
            else format_from kwargs s' (Some [])
        | [] => Raise ValueError
        end
      else if c =? rbrace then
        match s' with
        | c' :: s'' =>
            if c' =? rbrace then result_map (cons rbrace) (format_from kwargs s'' None)
            else Raise ValueError
        | [] => Raise ValueError
        end
      else result_map (cons c) (format_from kwargs s' None)
  | c :: s', Some name =>
      if c =? rbrace then
        if identifier name then
          match kwargs !! name with
          | Some v => result_map (app v) (format_from kwargs s' None)
          | None => Raise KeyError
          end
        else Raise ValueError
      else format_from kwargs s' (Some (name ++ [c]))
  end.

Definition format (template : str) (kwargs : gmap str str) : result str :=
  format_from kwargs template None.

(** The text of the template of each role, as [create_prompt_template]
    gives it to [PromptTemplate.from_template]. *)
Definition create_prompt_template (role : Role) : str :=
  match role with
  | GeneralDoctor => py "
                You are a medical assistant analyzing patient-reported symptoms. Provide 2-3 possible conditions with brief reasons, using this exact format:
                - Condition 1: [Name] - [Reason]
                - Condition 2: [Name] - [Reason]
                - Condition 3: [Name] - [Reason]
                Input: {symptoms}
            "
  | Diagnosis => py "
                You are a medical assistant reviewing a preliminary assessment. Suggest a likely condition, clinic type, and specialist type, using this exact format:
                - Diagnosis: [Condition] - [Explanation]
                - Recommended Clinic: [Clinic type]
                - Recommended Doctor Type: [Specialist type]
                Input: {preliminary_assessment}
            "
  | Medication => py "
                You are a medical assistant providing treatment options based on a diagnosis. Suggest 2-3 medications with their role, dosage, and schedule, using this exact format:
                - Medication 1: [Name] - Role: [Role] - Dosage: [Dosage] - Schedule: [Schedule]
                - Medication 2: [Name] - Role: [Role] - Dosage: [Dosage] - Schedule: [Schedule]
                - Medication 3: [Name] - Role: [Role] - Dosage: [Dosage] - Schedule: [Schedule]
                Input: {diagnosis}
            "
  | FollowUp => py "
                You are a medical assistant coordinating follow-up care. Suggest 2 follow-up actions and monitoring tips, using this exact format:
                - Follow-Up Action 1: [Action] - [Timeline]
                - Follow-Up Action 2: [Action] - [Timeline]
                - Monitoring for New Issues: [Suggestions]
                Input:
                - Symptoms: {symptoms}
                - Preliminary Assessment: {preliminary_assessment}
                - Diagnosis: {diagnosis}
                - Medications: {medications}
            "
  end.

End Template.
Import Template.

(** ** The world and the monad *)

(** What the program does with the remote model: an agent (and with it a
    chat model) is constructed, or the model of an agent is invoked on a
    prompt. *)
Inductive Event : Type :=
  | EvInit (role : Role) (input_data : gmap str str)
  | EvInvoke (role : Role) (prompt : str).

Definition event_role (e : Event) : Role :=
  match e with
  | EvInit r _ => r
  | EvInvoke r _ => r
  end.

Record World : Type := mkWorld {
  stdin : list str;      (* the lines not read yet, without their newline *)
  stdout : list str;     (* the chunks written so far, oldest first *)
  trace : list Event     (* oldest first *)
}.

Definition M (A : Type) : Type := World -> result A * World.

Definition ret {A : Type} (a : A) : M A := fun w => (Ok a, w).

Definition raise {A : Type} (e : exn) : M A := fun w => (Raise e, w).

Definition bind {A B : Type} (m : M A) (k : A -> M B) : M B :=
  fun w =>
    match m w with
    | (Ok a, w') => k a w'
    | (Raise e, w') => (Raise e, w')
    end.

(** [try: m except Exception as e: h e]; what [m] did to the world before
    raising stays done. *)
Definition try_except {A : Type} (m : M A) (h : exn -> M A) : M A :=
  fun w =>
    match m w with
    | (Ok a, w') => (Ok a, w')
    | (Raise e, w') => h e w'
    end.

Definition lift {A : Type} (r : result A) : M A := fun w => (r, w).

Declare Scope monad_scope.
Delimit Scope monad_scope with monad.
Notation "x <- c1 ;; c2" := (bind c1 (fun x => c2))
  (at level 100, c1 at next level, right associativity) : monad_scope.
Notation "c1 ;; c2" := (bind c1 (fun _ => c2))
  (at level 100, right associativity) : monad_scope.
Local Open Scope monad_scope.

Definition add_event (e : Event) : M unit :=
  fun w => (Ok tt, mkWorld (stdin w) (stdout w) (trace w ++ [e])).

Definition write (s : str) : M unit :=
  fun w => (Ok tt, mkWorld (stdin w) (stdout w ++ [s]) (trace w)).

Definition newline : N := 10.

(** [print(s)] *)
Definition print (s : str) : M unit := write (s ++ [newline]).

(** [input(prompt)]: the prompt is written, then one line is read;
    [EOFError] when standard input is exhausted. *)
Definition input (prompt : str) : M str :=
  write prompt ;;
  fun w =>
    match stdin w with
    | [] => (Raise EOFError, w)
    | line :: rest => (Ok line, mkWorld rest (stdout w) (trace w))
    end.

(** ** Agents *)

(** The handle of a constructed chat model. *)
Inductive ChatModel : Type := ChatGoogleGenerativeAI.

(** What [model.invoke] returns, seen through [response_text]: a text, or
    a content that is not a [str] (on which [strip] is not defined). *)
Inductive Response : Type :=
  | Content (text : str)
  | NonText.

Record Agent : Type := mkAgent {
  role : Role;
  input_data : gmap str str;
  prompt_template : str;
  model : option ChatModel
}.

Definition RATE_LIMIT_SENTINEL : str :=
  py "Error: Rate limit exceeded, please try again later".
Definition PERMISSION_SENTINEL : str :=
  py "Error: Invalid API key or insufficient permissions".
Definition BLOCKED_SENTINEL : str :=
  py "Blocked: Response filtered due to content restrictions".

Definition required_keys : list str :=
  [py "symptoms"; py "preliminary_assessment"; py "diagnosis"; py "medications"].

(** [bool(d.get(k))]: absent and empty are both falsy. *)
Definition get_truthy (d : gmap str str) (k : str) : bool :=
  match d !! k with
  | Some v => truthy v
  | None => false
  end.

(** [d[k]] *)
Definition getitem (d : gmap str str) (k : str) : M str :=
  match d !! k with
  | Some v => ret v
  | None => raise KeyError
  end.

Section Provider.

(** The remote collaborator.  [model_init h] tells whether constructing the
    chat model succeeds after history [h]; [model_invoke h prompt] is what
    invoking it on [prompt] after history [h] does: it returns a response
    or raises. *)
Variable model_init : list Event -> bool.
Variable model_invoke : list Event -> str -> result Response.

(** The [try] around the constructor of the chat model in [__init__]: a
    failure leaves [None]. *)
Definition new_chat_model : M (option ChatModel) :=
  fun w =>
    (Ok (if model_init (trace w) then Some ChatGoogleGenerativeAI else None), w).

(** [Agent.__init__]; [input_data or {}] is the given dict, or an empty one
    for [None] (and for an empty dict). *)
Definition Agent_init (role : Role) (input_data : option (gmap str str)) : M Agent :=
  let data := default ∅ input_data in
  let template := create_prompt_template role in
  add_event (EvInit role data) ;;
  m <- new_chat_model ;;
  ret (mkAgent role data template m).

(** [self.model.invoke(prompt)] *)
Definition invoke (self : Agent) (prompt : str) : M Response :=
  fun w =>
    (model_invoke (trace w) prompt,
     mkWorld (stdin w) (stdout w) (trace w ++ [EvInvoke (role self) prompt])).

(** The [if]/[elif] chain of [run] that checks the inputs of the role and
    formats the prompt.  [None] is the early [return None] of a missing
    input. *)
Definition build_prompt (self : Agent) : M (option str) :=
  match role self with
  | GeneralDoctor =>
      if negb (get_truthy (input_data self) (py "symptoms")) then ret None
      else
        v <- getitem (input_data self) (py "symptoms") ;;
        p <- lift (format (prompt_template self) {[ py "symptoms" := v ]}) ;;
        ret (Some p)
  | Diagnosis =>
      if negb (get_truthy (input_data self) (py "preliminary_assessment")) then ret None
      else
        v <- getitem (input_data self) (py "preliminary_assessment") ;;
        p <- lift (format (prompt_template self) {[ py "preliminary_assessment" := v ]}) ;;
        ret (Some p)
  | Medication =>
      if negb (get_truthy (input_data self) (py "diagnosis")) then ret None
      else
        v <- getitem (input_data self) (py "diagnosis") ;;
        p <- lift (format (prompt_template self) {[ py "diagnosis" := v ]}) ;;
        ret (Some p)
  | FollowUp =>
      if negb (forallb (get_truthy (input_data self)) required_keys) then ret None
      else
        p <- lift (format (prompt_template self) (input_data self)) ;;
        ret (Some p)
  end.

(** [response_text], the text on which [strip] is called; a content that is
    not a [str] raises [AttributeError] there. *)
Definition response_text (r : Response) : M str :=
  match r with
  | Content text => ret text
  | NonText => raise AttributeError
  end.

(** [Agent.run] *)
Definition run (self : Agent) : M (option str) :=
  match model self with
  | None => ret None
  | Some _ =>
      try_except
        (p <- build_prompt self ;;
         match p with
         | None => ret None
         | Some prompt =>
             response <- invoke self prompt ;;
             text <- response_text response ;;
             if negb (truthy (strip text)) then ret (Some BLOCKED_SENTINEL)
             else ret (Some text)
         end)
        (fun e =>
           match e with
           | ResourceExhausted => ret (Some RATE_LIMIT_SENTINEL)
           | Forbidden => ret (Some PERMISSION_SENTINEL)
           | _ => ret None
           end)
  end.

Definition GeneralDoctorAgent (symptoms : str) : M Agent :=
  Agent_init GeneralDoctor (Some {[ py "symptoms" := symptoms ]}).

Definition DiagnosisAgent (preliminary_assessment : str) : M Agent :=
  Agent_init Diagnosis (Some {[ py "preliminary_assessment" := preliminary_assessment ]}).

Definition MedicationAgent (diagnosis : str) : M Agent :=
  Agent_init Medication (Some {[ py "diagnosis" := diagnosis ]}).

Definition FollowUpAgent (symptoms preliminary_assessment diagnosis medications : str)
  : M Agent :=
  Agent_init FollowUp
    (Some (<[ py "symptoms" := symptoms ]>
          (<[ py "preliminary_assessment" := preliminary_assessment ]>
          (<[ py "diagnosis" := diagnosis ]>
          {[ py "medications" := medications ]})))).


(** ** The workflow *)

(** The [results] dict: keys in insertion order, values [Optional[str]]. *)
Abbreviation results_dict := (list (str * option str)).

(** [d[k] = v] *)
Fixpoint dict_set (d : results_dict) (k : str) (v : option str) : results_dict :=
  match d with
  | [] => [(k, v)]
  | (k', v') :: d' =>
      if str_eqb k' k then (k', v) :: d' else (k', v') :: dict_set d' k v
  end.

(** [d.get(k)], with [None] for an absent key and [Some v] for a key bound
    to [v] (which may itself be Python's [None]). *)
Fixpoint dict_lookup (d : results_dict) (k : str) : option (option str) :=
  match d with
  | [] => None
  | (k', v') :: d' => if str_eqb k' k then Some v' else dict_lookup d' k
  end.

Definition keys (d : results_dict) : list str := map fst d.

(** The test after each of the first three stages:
    [not out or "Error" in out or "Blocked" in out]. *)
Definition stage_failed (out : option str) : bool :=
  match out with
  | None => true
  | Some s => negb (truthy s) || contains (py "Error") s || contains (py "Blocked") s
  end.

(** The text of an output that passes the test, for the next stage. *)
Definition passed (out : option str) : option str :=
  if stage_failed out then None else out.

(** [run_workflow] *)
Definition run_workflow (symptoms : str) : M results_dict :=
  let results := [] in
  general_doctor <- GeneralDoctorAgent symptoms ;;
  out <- run general_doctor ;;
  let results := dict_set results (py "general_doctor") out in
  match passed out with
  | None => ret results
  | Some r_general_doctor =>
      diagnosis_agent <- DiagnosisAgent r_general_doctor ;;
      out <- run diagnosis_agent ;;
      let results := dict_set results (py "diagnosis") out in
      match passed out with
      | None => ret results
      | Some r_diagnosis =>
          medication_agent <- MedicationAgent r_diagnosis ;;
          out <- run medication_agent ;;
          let results := dict_set results (py "medication") out in
          match passed out with
          | None => ret results
          | Some r_medication =>
              follow_up_agent <-
                FollowUpAgent symptoms r_general_doctor r_diagnosis r_medication ;;
              out <- run follow_up_agent ;;
              let results := dict_set results (py "follow_up") out in
              ret results
          end
      end
  end.

(** ** The command-line menu *)

Definition NO_OUTPUT : str := py "No output available".

(** [get_user_input] *)
Definition get_user_input (prompt : str) : M str :=
  line <- input prompt ;;
  ret (strip line).

(** [str(x)] of an [Optional[str]], as [print] shows it. *)
Definition show (x : option str) : str :=
  match x with
  | Some s => s
  | None => py "None"
  end.

(** [results.get(k, "No output available")] *)
Definition get_or_no_output (results : results_dict) (k : str) : option str :=
  match dict_lookup results k with
  | Some v => v
  | None => Some NO_OUTPUT
  end.

(** [result if result else "No output available"] *)
Definition result_or_no_output (result : option str) : str :=
  match result with
  | Some s => if truthy s then s else NO_OUTPUT
  | None => NO_OUTPUT
  end.

Definition INVALID_CHOICE : str :=
  py "Invalid choice. Please select a number between 1 and 5.".

(** [main] *)
Definition main : M unit :=
  print (py "=== Medical Workflow Interface ===") ;;
  print (py "Choose an option:") ;;
  print (py "1. Run full workflow") ;;
  print (py "2. Run General Doctor Agent") ;;
  print (py "3. Run Diagnosis Agent") ;;
  print (py "4. Run Medication Agent") ;;
  print (py "5. Run Follow-Up Agent") ;;
  choice <- get_user_input (py "Enter your choice (1-5): ") ;;
  if str_eqb choice (py "1") then
    print (newline :: py "=== Running Full Workflow ===") ;;
    symptoms <- get_user_input (py "Enter patient symptoms: ") ;;
    results <- run_workflow symptoms ;;
    print (newline :: py "General Doctor Assessment:") ;;
    print (show (get_or_no_output results (py "general_doctor"))) ;;
    print (newline :: py "Diagnosis:") ;;
    print (show (get_or_no_output results (py "diagnosis"))) ;;
    print (newline :: py "Medication Recommendations:") ;;
    print (show (get_or_no_output results (py "medication"))) ;;
    print (newline :: py "Follow-Up Recommendations:") ;;
    print (show (get_or_no_output results (py "follow_up")))
  else if str_eqb choice (py "2") then
    print (newline :: py "=== Running General Doctor Agent ===") ;;
    symptoms <- get_user_input (py "Enter patient symptoms: ") ;;
    agent <- GeneralDoctorAgent symptoms ;;
    result <- run agent ;;
    print (newline :: py "General Doctor Assessment:") ;;
    print (result_or_no_output result)
  else if str_eqb choice (py "3") then
    print (newline :: py "=== Running Diagnosis Agent ===") ;;
    preliminary_assessment <- get_user_input (py "Enter preliminary assessment: ") ;;
    agent <- DiagnosisAgent preliminary_assessment ;;
    result <- run agent ;;
    print (newline :: py "Diagnosis:") ;;
    print (result_or_no_output result)
  else if str_eqb choice (py "4") then
    print (newline :: py "=== Running Medication Agent ===") ;;
    diagnosis <- get_user_input (py "Enter diagnosis: ") ;;
    agent <- MedicationAgent diagnosis ;;
    result <- run agent ;;
    print (newline :: py "Medication Recommendations:") ;;
    print (result_or_no_output result)
  else if str_eqb choice (py "5") then
    print (newline :: py "=== Running Follow-Up Agent ===") ;;
    symptoms <- get_user_input (py "Enter patient symptoms: ") ;;
    preliminary_assessment <- get_user_input (py "Enter preliminary assessment: ") ;;
    diagnosis <- get_user_input (py "Enter diagnosis: ") ;;
    medications <- get_user_input (py "Enter medications: ") ;;
    agent <- FollowUpAgent symptoms preliminary_assessment diagnosis medications ;;
    result <- run agent ;;
    print (newline :: py "Follow-Up Recommendations:") ;;
    print (result_or_no_output result)
  else
    print INVALID_CHOICE.

(** ** Loading the API key *)

(** [s[:n]] *)
Definition slice_to (n : nat) (s : str) : str := take n s.

(** [s[-n:]], for a positive [n]: the slice starts at [len(s) - n], or at
    the beginning when [s] is shorter than [n]. *)
Definition slice_last (n : nat) (s : str) : str := drop (List.length s - n) s.

(** The line logged once the key is loaded. *)
Definition api_key_log (key : str) : str :=
  py "API Key loaded: " ++ slice_to 4 key ++ py "..." ++ slice_last 4 key.

(** The loading of the key when the module is imported: [env] is what
    [os.getenv] gave.  The result is the key with the line logged for it,
    or the [ValueError] of a key that is absent or empty. *)
Definition load_api_key (env : option str) : result (str * str) :=
  match env with
  | None => Raise ValueError
  | Some key => if negb (truthy key) then Raise ValueError else Ok (key, api_key_log key)
  end.

(** ** Reading a template as literal text and fields *)

Inductive Piece : Type :=
  | Lit (text : str)
  | Field (name : str).

(** The template text a list of pieces stands for. *)
Fixpoint template_text (ps : list Piece) : str :=
  match ps with
  | [] => []
  | Lit text :: ps' => text ++ template_text ps'
  | Field name :: ps' => lbrace :: name ++ rbrace :: template_text ps'
  end.

(** The pieces with every field replaced by the text bound to it, the
    literal text kept. *)
Fixpoint fill (kwargs : gmap str str) (ps : list Piece) : str :=
  match ps with
  | [] => []
  | Lit text :: ps' => text ++ fill kwargs ps'
  | Field name :: ps' => default [] (kwargs !! name) ++ fill kwargs ps'
  end.

Fixpoint field_names (ps : list Piece) : list str :=
  match ps with
  | [] => []
  | Lit _ :: ps' => field_names ps'
  | Field name :: ps' => name :: field_names ps'
  end.

Definition brace_free (s : str) : bool :=
  forallb (fun c => negb (c =? lbrace) && negb (c =? rbrace)) s.

(** Literal text has no brace; a field name is an identifier. *)
Definition piece_ok (p : Piece) : bool :=
  match p with
  | Lit text => brace_free text
  | Field name => identifier name
  end.

(** Splits a template text at its braces. *)
Fixpoint pieces_from (s lit : str) (field : option str) : list Piece :=
  match s, field with
  | [], _ => [Lit lit]
  | c :: s', None =>
      if c =? lbrace then Lit lit :: pieces_from s' [] (Some [])
      else pieces_from s' (lit ++ [c]) None
  | c :: s', Some name =>
      if c =? rbrace then Field name :: pieces_from s' [] None
      else pieces_from s' [] (Some (name ++ [c]))
  end.

Definition pieces_of (template : str) : list Piece := pieces_from template [] None.

(** The input fields each role requires. *)
Definition required_fields (r : Role) : list str :=
  match r with
  | GeneralDoctor => [py "symptoms"]
  | Diagnosis => [py "preliminary_assessment"]
  | Medication => [py "diagnosis"]
  | FollowUp => required_keys
  end.

(** The key of each stage in the results of the workflow, and the stages
    in their order. *)
Definition stage_key (r : Role) : str :=
  match r with
  | GeneralDoctor => py "general_doctor"
  | Diagnosis => py "diagnosis"
  | Medication => py "medication"
  | FollowUp => py "follow_up"
  end.

Definition stage_index (r : Role) : nat :=
  match r with
  | GeneralDoctor => 0
  | Diagnosis => 1
  | Medication => 2
  | FollowUp => 3
  end.

Definition workflow_keys : list str :=
  map stage_key [GeneralDoctor; Diagnosis; Medication; FollowUp].

(** What [run] returns once the model has been invoked, by what the
    invocation did. *)
Definition outcome_value (o : result Response) : option str :=
  match o with
  | Ok (Content text) => if truthy (strip text) then Some text else Some BLOCKED_SENTINEL
  | Ok NonText => None
  | Raise ResourceExhausted => Some RATE_LIMIT_SENTINEL
  | Raise Forbidden => Some PERMISSION_SENTINEL
  | Raise _ => None
  end.

(** The world after one more event. *)
Definition after_event (w : World) (e : Event) : World :=
  mkWorld (stdin w) (stdout w) (trace w ++ [e]).

(** An agent with another input dict. *)
Definition with_input_data (self : Agent) (d : gmap str str) : Agent :=
  mkAgent (role self) d (prompt_template self) (model self).

(** The prompt [run] sends for a role and an input dict. *)
Definition prompt_for (r : Role) (d : gmap str str) : str :=
  fill d (pieces_of (create_prompt_template r)).

(** One stage: an agent of role [r] is constructed on the input dict [d]
    and run; [out] is what it returns and [w2] the world after it. *)
Definition stage_run (r : Role) (d : gmap str str) (w : World)
    (out : option str) (w2 : World) : Prop :=
  exists a w1, Agent_init r (Some d) w = (Ok a, w1) /\ run a w1 = (Ok out, w2).

(** The inputs of each stage of the workflow. *)
Definition general_doctor_input (symptoms : str) : gmap str str :=
  {[ py "symptoms" := symptoms ]}.
Definition diagnosis_input (r1 : str) : gmap str str :=
  {[ py "preliminary_assessment" := r1 ]}.
Definition medication_input (r2 : str) : gmap str str :=
  {[ py "diagnosis" := r2 ]}.
Definition follow_up_input (symptoms r1 r2 r3 : str) : gmap str str :=
  <[ py "symptoms" := symptoms ]>
    (<[ py "preliminary_assessment" := r1 ]>
      (<[ py "diagnosis" := r2 ]> {[ py "medications" := r3 ]})).

(** The options of the menu. *)
Inductive MenuOption : Type :=
  | Full
  | Single (r : Role).

(** The option a choice stands for. *)
Definition menu_option (choice : str) : option MenuOption :=
  if str_eqb choice (py "1") then Some Full
  else if str_eqb choice (py "2") then Some (Single GeneralDoctor)
  else if str_eqb choice (py "3") then Some (Single Diagnosis)
  else if str_eqb choice (py "4") then Some (Single Medication)
  else if str_eqb choice (py "5") then Some (Single FollowUp)
  else None.

(** The fields an option asks for, one line each. *)
Definition option_fields (o : MenuOption) : list str :=
  match o with
  | Full => [py "symptoms"]
  | Single r => required_fields r
  end.

Definition lines_needed (choice : str) : nat :=
  match menu_option choice with
  | Some o => List.length (option_fields o)
  | None => 0
  end.

(** The input dict made of the fields of a role and the lines read for
    them, each stripped. *)
Definition input_of_lines (r : Role) (lines : list str) : gmap str str :=
  list_to_map (zip (required_fields r) (map strip lines)).

Definition result_header (r : Role) : str :=
  match r with
  | GeneralDoctor => newline :: py "General Doctor Assessment:"
  | Diagnosis => newline :: py "Diagnosis:"
  | Medication => newline :: py "Medication Recommendations:"
  | FollowUp => newline :: py "Follow-Up Recommendations:"
  end.

(** What [print] writes for a text. *)
Definition printed (s : str) : str := s ++ [newline].

Definition menu_text : list str :=
  [printed (py "=== Medical Workflow Interface ===");
   printed (py "Choose an option:");
   printed (py "1. Run full workflow");
   printed (py "2. Run General Doctor Agent");
   printed (py "3. Run Diagnosis Agent");
   printed (py "4. Run Medication Agent");
   printed (py "5. Run Follow-Up Agent");
   py "Enter your choice (1-5): "].

(** The events that construct an agent, and those that invoke a model. *)
Definition is_init (e : Event) : bool :=
  match e with
  | EvInit _ _ => true
  | EvInvoke _ _ => false
  end.

Definition is_invoke (e : Event) : bool := negb (is_init e).

(** Whether a dict binds a key. *)
Definition has_key (d : gmap str str) (k : str) : bool :=
  match d !! k with
  | Some _ => true
  | None => false
  end.

(** How many events of a list satisfy a test. *)
Definition count_events (f : Event -> bool) (evs : list Event) : nat :=
  List.length (List.filter f evs).

(** An agent is made by the constructor call [mk] in world [w] and run:
    [out] is what its [run] returns and [w'] the world after it. *)
Definition ran (mk : M Agent) (w : World) (out : option str) (w' : World) : Prop :=
  exists a w0, mk w = (Ok a, w0) /\ run a w0 = (Ok out, w').

(** The chain of the workflow has reached stage [r] from world [w]: the
    stages before [r] were run in order, each on the text of the one
    before, and each returned a text that passes the test; then the agent
    of stage [r] was made and run, and returned [out] in world [w'].
    [results] binds the keys of these stages to what they returned. *)
Definition workflow_reached (symptoms : str) (w : World) (r : Role)
    (results : results_dict) (out : option str) (w' : World) : Prop :=
  match r with
  | GeneralDoctor =>
      ran (GeneralDoctorAgent symptoms) w out w'
      /\ results = [(py "general_doctor", out)]
  | Diagnosis =>
      exists r1 w1,
        ran (GeneralDoctorAgent symptoms) w (Some r1) w1
        /\ stage_failed (Some r1) = false
        /\ ran (DiagnosisAgent r1) w1 out w'
        /\ results = [(py "general_doctor", Some r1); (py "diagnosis", out)]
  | Medication =>
      exists r1 w1 r2 w2,
        ran (GeneralDoctorAgent symptoms) w (Some r1) w1
        /\ stage_failed (Some r1) = false
        /\ ran (DiagnosisAgent r1) w1 (Some r2) w2
        /\ stage_failed (Some r2) = false
        /\ ran (MedicationAgent r2) w2 out w'
        /\ results = [(py "general_doctor", Some r1); (py "diagnosis", Some r2);
                      (py "medication", out)]
  | FollowUp =>
      exists r1 w1 r2 w2 r3 w3,
        ran (GeneralDoctorAgent symptoms) w (Some r1) w1
        /\ stage_failed (Some r1) = false
        /\ ran (DiagnosisAgent r1) w1 (Some r2) w2
        /\ stage_failed (Some r2) = false
        /\ ran (MedicationAgent r2) w2 (Some r3) w3
        /\ stage_failed (Some r3) = false
        /\ ran (FollowUpAgent symptoms r1 r2 r3) w3 out w'
        /\ results = [(py "general_doctor", Some r1); (py "diagnosis", Some r2);
                      (py "medication", Some r3); (py "follow_up", out)]
  end.

(** The text that stands for the result of one agent: the text it
    returned, or [No output available] when it returned [None]. *)
Definition shown_result (out : option str) : str :=
  match out with
  | Some s => s
  | None => py "No output available"
  end.

(** [c] is the text that stands for key [k] of the results of the
    workflow: the text bound to [k]; [None] when [k] is bound to Python's
    [None]; [No output available] when [k] is not a key. *)
Definition shown_entry (results : results_dict) (k : str) (c : str) : Prop :=
  (exists s, In (k, Some s) results /\ c = s)
  \/ (In (k, None) results /\ c = py "None")
  \/ (~ In k (keys results) /\ c = py "No output available").

(** Sample providers and inputs, for the claims at concrete inputs. *)

Definition model_ready : list Event -> bool := fun _ => true.

Definition model_says (text : str) : list Event -> str -> result Response :=
  fun _ _ => Ok (Content text).

Definition model_raises (e : exn) : list Event -> str -> result Response :=
  fun _ _ => Raise e.

(** Three texts, then the permission error. *)
Definition model_then_forbidden : list Event -> str -> result Response :=
  fun h _ => if (List.length h <? 7)%nat then Ok (Content (py "flu")) else Raise Forbidden.

(** Texts as long as the history is shorter than [n] events, then the
    permission error. *)
Definition model_forbidden_after (n : nat) : list Event -> str -> result Response :=
  fun h _ => if (List.length h <? n)%nat then Ok (Content (py "flu")) else Raise Forbidden.

Definition empty_world : World := mkWorld [] [] [].

Definition agent_on (r : Role) (d : gmap str str) : Agent :=
  mkAgent r d (create_prompt_template r) (Some ChatGoogleGenerativeAI).

Definition cough_input : gmap str str := {[ py "symptoms" := py "cough" ]}.

(** ** Facts about strings *)

Lemma str_eqb_eq (a b : str) : str_eqb a b = true <-> a = b.
Proof.
  revert b; induction a as [|x a IH]; intros [|y b]; simpl; try easy.
  rewrite andb_true_iff, N.eqb_eq, IH. split.
  - intros [-> ->]; reflexivity.
  - intros [= -> ->]; auto.
Qed.

Lemma str_eqb_refl (a : str) : str_eqb a a = true.
Proof. apply str_eqb_eq; reflexivity. Qed.

Lemma lstrip_nil_iff (s : str) : lstrip s = [] <-> forallb isspace s = true.
Proof.
  induction s as [|c s IH]; simpl; [easy|].
  destruct (isspace c); simpl; [exact IH|]. split; discriminate.
Qed.

Lemma lstrip_suffix (s : str) : exists ws, s = ws ++ lstrip s /\ forallb isspace ws = true.
Proof.
  induction s as [|c s [ws [E H]]]; simpl.
  - exists []; auto.
  - destruct (isspace c) eqn:Hc.
    + exists (c :: ws); simpl. rewrite Hc, H. split; [congruence|reflexivity].
    + exists []; auto.
Qed.

(** [strip] leaves nothing exactly when every character is white space. *)
Lemma strip_nil_iff (s : str) : strip s = [] <-> forallb isspace s = true.
Proof.
  unfold strip, rstrip. split.
  - intros H. apply (f_equal (@rev N)) in H. rewrite rev_involutive in H.
    simpl in H. apply lstrip_nil_iff in H.
    destruct (lstrip_suffix s) as [ws [E Hws]].
    rewrite E, forallb_app, Hws. simpl.
    rewrite forallb_forall in *. intros x Hx. apply H. apply in_rev in Hx. exact Hx.
  - intros H. apply lstrip_nil_iff in H. rewrite H. reflexivity.
Qed.

Lemma startswith_iff (p s : str) : startswith p s = true <-> exists t, s = p ++ t.
Proof.
  revert s; induction p as [|a p IH]; intros s; simpl.
  - split; eauto.
  - destruct s as [|b s].
    + split; [discriminate|]. intros [t Ht]; discriminate.
    + rewrite andb_true_iff, N.eqb_eq, IH. split.
      * intros [-> [t ->]]. eauto.
      * intros [t [= -> ->]]. eauto.
Qed.

(** [contains] is the substring test. *)
Lemma contains_iff (needle s : str) :
  contains needle s = true <-> exists a b, s = a ++ needle ++ b.
Proof.
  induction s as [|c s IH]; simpl.
  - rewrite orb_false_r, startswith_iff. split.
    + intros [t Ht]. exists [], t. exact Ht.
    + intros [a [b H]]. destruct a; [|discriminate]. eauto.
  - rewrite orb_true_iff, startswith_iff, IH. split.
    + intros [[t Ht]|[a [b Hab]]].
      * exists [], t. exact Ht.
      * exists (c :: a), b. simpl. congruence.
    + intros [a [b H]]. destruct a as [|x a]; simpl in H.
      * left; eauto.
      * right. injection H as -> ->. eauto.
Qed.

(** ** Formatting *)

Lemma result_map_compose {A B C : Type} (f : A -> B) (g : B -> C) (r : result A) :
  result_map g (result_map f r) = result_map (fun a => g (f a)) r.
Proof. destruct r; reflexivity. Qed.

Lemma ident_char_not_brace (c : N) :
  ident_char c = true -> (c =? lbrace) = false /\ (c =? rbrace) = false.
Proof.
  intros H. split; apply N.eqb_neq; intros ->; vm_compute in H; discriminate.
Qed.

Lemma ident_start_char (c : N) : ident_start c = true -> ident_char c = true.
Proof. unfold ident_char. intros ->. reflexivity. Qed.

Lemma format_from_literal (kwargs : gmap str str) (l s : str) :
  brace_free l = true ->
  format_from kwargs (l ++ s) None = result_map (app l) (format_from kwargs s None).
Proof.
  induction l as [|c l IH]; intros H.
  - change ([] ++ s) with s. destruct (format_from kwargs s None); reflexivity.
  - cbn [brace_free forallb] in H. apply andb_true_iff in H as [Hc Hl].
    apply andb_true_iff in Hc as [Hc1 Hc2].
    apply negb_true_iff in Hc1, Hc2.
    change ((c :: l) ++ s) with (c :: (l ++ s)). cbn [format_from].
    rewrite Hc1, Hc2, (IH Hl), result_map_compose. reflexivity.
Qed.

(** The rest of a field name, up to the closing brace. *)
Lemma format_from_name (kwargs : gmap str str) (name2 name1 s : str) :
  forallb ident_char name2 = true ->
  format_from kwargs (name2 ++ rbrace :: s) (Some name1) =
  if identifier (name1 ++ name2) then
    match kwargs !! (name1 ++ name2) with
    | Some v => result_map (app v) (format_from kwargs s None)
    | None => Raise KeyError
    end
  else Raise ValueError.
Proof.
  revert name1; induction name2 as [|c name2 IH]; intros name1 H.
  - rewrite app_nil_r. cbn [app format_from]. rewrite N.eqb_refl. reflexivity.
  - cbn [forallb] in H. apply andb_true_iff in H as [Hc Hn].
    destruct (ident_char_not_brace c Hc) as [_ Hr].
    change ((c :: name2) ++ rbrace :: s) with (c :: (name2 ++ rbrace :: s)).
    cbn [format_from]. rewrite Hr, (IH _ Hn), <- app_assoc. reflexivity.
Qed.

Lemma format_from_field (kwargs : gmap str str) (name s : str) (v : str) :
  identifier name = true ->
  kwargs !! name = Some v ->
  format_from kwargs (lbrace :: name ++ rbrace :: s) None =
  result_map (app v) (format_from kwargs s None).
Proof.
  intros Hid Hv. destruct name as [|c name]; [discriminate|].
  pose proof Hid as Hid'. cbn [identifier] in Hid'.
  apply andb_true_iff in Hid' as [Hc Hn].
  destruct (ident_char_not_brace c (ident_start_char c Hc)) as [Hl Hr].
  change (lbrace :: (c :: name) ++ rbrace :: s)
    with (lbrace :: c :: (name ++ rbrace :: s)).
  cbn [format_from]. rewrite N.eqb_refl, Hl, Hr.
  rewrite (format_from_name kwargs name ([] ++ [c]) s Hn).
  cbn [app]. rewrite Hid, Hv. reflexivity.
Qed.

(** Formatting a well-formed template whose fields are all bound fills the
    fields and keeps the rest. *)
Lemma format_fill (kwargs : gmap str str) (ps : list Piece) :
  forallb piece_ok ps = true ->
  (forall name, In name (field_names ps) -> is_Some (kwargs !! name)) ->
  format (template_text ps) kwargs = Ok (fill kwargs ps).
Proof.
  unfold format. induction ps as [|[text|name] ps IH]; intros Hok Hb.
  - reflexivity.
  - cbn [forallb piece_ok] in Hok. apply andb_true_iff in Hok as [Ht Hps].
    cbn [template_text fill]. rewrite (format_from_literal _ _ _ Ht), (IH Hps Hb).
    reflexivity.
  - cbn [forallb piece_ok] in Hok. apply andb_true_iff in Hok as [Hid Hps].
    destruct (Hb name) as [v Hv]; [left; reflexivity|].
    cbn [template_text fill].
    rewrite (format_from_field _ _ _ v Hid Hv), IH; auto.
    + rewrite Hv. reflexivity.
    + intros n Hn. apply Hb. right. exact Hn.
Qed.

(** [fill] looks at the fields of the pieces only. *)
Lemma fill_ext (k1 k2 : gmap str str) (ps : list Piece) :
  (forall name, In name (field_names ps) -> k1 !! name = k2 !! name) ->
  fill k1 ps = fill k2 ps.
Proof.
  induction ps as [|[text|name] ps IH]; intros H; cbn [fill].
  - reflexivity.
  - rewrite IH; auto.
  - rewrite (H name), IH; auto.
    + intros n Hn. apply H. right. exact Hn.
    + left. reflexivity.
Qed.

(** ** The prompt of an agent *)

Arguments py : simpl never.
Arguments create_prompt_template : simpl never.
Arguments pieces_of : simpl never.
Arguments strip : simpl never.

(** Each template is its pieces: brace-free text around the required
    fields of the role, in order. *)
Lemma template_pieces (r : Role) :
  template_text (pieces_of (create_prompt_template r)) = create_prompt_template r
  /\ forallb piece_ok (pieces_of (create_prompt_template r)) = true
  /\ field_names (pieces_of (create_prompt_template r)) = required_fields r.
Proof. destruct r; vm_compute; repeat split; reflexivity. Qed.

Lemma get_truthy_Some (d : gmap str str) (k : str) :
  get_truthy d k = true -> exists v, d !! k = Some v /\ truthy v = true.
Proof.
  unfold get_truthy. destruct (d !! k) as [v|]; [|discriminate]. eauto.
Qed.

Lemma format_single (r : Role) (k v : str) (d : gmap str str) :
  required_fields r = [k] -> d !! k = Some v ->
  format (create_prompt_template r) {[ k := v ]} = Ok (prompt_for r d).
Proof.
  intros Hr Hk. destruct (template_pieces r) as (Ht & Hok & Hf).
  rewrite <- Ht at 1. rewrite format_fill; [|exact Hok|].
  - unfold prompt_for. f_equal. apply fill_ext. intros n Hn.
    rewrite Hf, Hr in Hn. destruct Hn as [<-|[]].
    rewrite lookup_singleton_eq. symmetry. exact Hk.
  - intros n Hn. rewrite Hf, Hr in Hn. destruct Hn as [<-|[]].
    rewrite lookup_singleton_eq. eauto.
Qed.

(** [build_prompt] leaves the world alone; it gives the prompt when every
    required field is truthy and [None] otherwise. *)
Lemma build_prompt_eq (self : Agent) (w : World) :
  prompt_template self = create_prompt_template (role self) ->
  build_prompt self w =
  (Ok (if forallb (get_truthy (input_data self)) (required_fields (role self))
       then Some (prompt_for (role self) (input_data self)) else None), w).
Proof.
  intros Ht. unfold build_prompt. rewrite Ht.
  destruct (role self) eqn:Hr; cbn [required_fields forallb].
  1-3: rewrite andb_true_r;
    match goal with |- context [get_truthy ?d ?k] =>
      destruct (get_truthy d k) eqn:Hg; [|reflexivity];
      apply get_truthy_Some in Hg as (v & Hv & _);
      unfold bind, getitem, lift, ret; rewrite Hv; cbn [negb];
      match goal with |- context [format (create_prompt_template ?r) _] =>
        rewrite (format_single r k v d eq_refl Hv)
      end; reflexivity
    end.
  destruct (forallb _ required_keys) eqn:Hall; [|reflexivity].
  cbn [negb]. unfold bind, lift, ret.
  destruct (template_pieces FollowUp) as (Hx & Hok & Hf).
  rewrite <- Hx at 1. rewrite format_fill; [unfold prompt_for; reflexivity|exact Hok|].
  intros n Hn. rewrite Hf in Hn. rewrite forallb_forall in Hall.
  destruct (get_truthy_Some _ _ (Hall n Hn)) as (v & Hv & _). eauto.
Qed.

(** Whatever its template, [build_prompt] never touches the world. *)
Lemma build_prompt_world (self : Agent) (w : World) :
  snd (build_prompt self w) = w.
Proof.
  unfold build_prompt.
  destruct (role self);
    repeat match goal with
    | |- context [negb ?b] => destruct b; cbn [negb]
    end; try reflexivity;
    unfold bind, getitem, lift, ret;
    repeat match goal with
    | |- context [match ?d !! ?k with _ => _ end] => destruct (d !! k)
    end; try reflexivity;
    match goal with |- context [format ?t ?k] => destruct (format t k) end;
    reflexivity.
Qed.

(** It never gets past a falsy required field. *)
Lemma build_prompt_missing (self : Agent) (w : World) (k : str) :
  In k (required_fields (role self)) ->
  get_truthy (input_data self) k = false ->
  build_prompt self w = (Ok None, w).
Proof.
  intros Hin Hk. unfold build_prompt.
  destruct (role self); cbn [required_fields] in Hin.
  1-3: destruct Hin as [<-|[]]; rewrite Hk; reflexivity.
  assert (forallb (get_truthy (input_data self)) required_keys = false) as ->;
    [|reflexivity].
  apply not_true_is_false. intros Hall. rewrite forallb_forall in Hall.
  rewrite (Hall k Hin) in Hk. discriminate.
Qed.

(** ** What [run] does *)

Lemma format_from_raises (kwargs : gmap str str) (s : str) (field : option str) (e : exn) :
  format_from kwargs s field = Raise e -> e = ValueError \/ e = KeyError.
Proof.
  remember (List.length s) as n eqn:Hn.
  assert (Hle : (List.length s <= n)%nat) by lia. clear Hn.
  revert s field e Hle.
  assert (Hmap : forall (f : str -> str) r e,
             result_map f r = Raise e -> r = Raise e).
  { intros f [a|e'] e0; cbn [result_map]; congruence. }
  induction n as [|n IH]; intros [|c s] field e Hle; cbn [List.length] in Hle;
    try lia; destruct field as [name|]; cbn [format_from]; intros H;
    try discriminate; try (injection H as <-; auto; fail).
  - destruct (c =? rbrace).
    + destruct (identifier name); [|injection H as <-; auto].
      destruct (kwargs !! _); [|injection H as <-; auto].
      apply Hmap in H. eapply IH; [|exact H]. lia.
    + eapply IH; [|exact H]. lia.
  - destruct (c =? lbrace).
    + destruct s as [|c' s']; [injection H as <-; auto|].
      cbn [List.length] in Hle. destruct (c' =? lbrace).
      * apply Hmap in H. eapply IH; [|exact H]. lia.
      * eapply IH; [|exact H]. cbn [List.length]. lia.
    + destruct (c =? rbrace).
      * destruct s as [|c' s']; [injection H as <-; auto|].
        cbn [List.length] in Hle.
        destruct (c' =? rbrace); [|injection H as <-; auto].
        apply Hmap in H. eapply IH; [|exact H]. lia.
      * apply Hmap in H. eapply IH; [|exact H]. lia.
Qed.

(** Building the prompt raises nothing but [KeyError] and [ValueError]. *)
Lemma build_prompt_raises (self : Agent) (w : World) (e : exn) :
  fst (build_prompt self w) = Raise e -> e = ValueError \/ e = KeyError.
Proof.
  unfold build_prompt.
  destruct (role self);
    match goal with
    | |- context [negb ?b] => destruct b; cbn [negb]
    end; try discriminate;
    unfold bind, getitem, lift, ret;
    repeat match goal with
    | |- context [match ?d !! ?k with _ => _ end] => destruct (d !! k)
    end; cbn [fst raise];
    try (intros [= <-]; auto; fail);
    match goal with |- context [format ?t ?k] => destruct (format t k) eqn:E end;
    cbn [fst]; try discriminate;
    intros [= <-]; exact (format_from_raises _ _ _ _ E).
Qed.

(** [run] either returns [None] without touching the world, or invokes the
    model once, on the prompt it built, and returns by what came back. *)
Lemma run_cases (self : Agent) (w : World) :
  run self w = (Ok None, w)
  \/ exists prompt,
       is_Some (model self)
       /\ build_prompt self w = (Ok (Some prompt), w)
       /\ run self w =
          (Ok (outcome_value (model_invoke (trace w) prompt)),
           after_event w (EvInvoke (role self) prompt)).
Proof.
  unfold run. destruct (model self) as [m|]; [|left; reflexivity].
  unfold try_except, bind.
  pose proof (build_prompt_world self w) as Hw.
  pose proof (build_prompt_raises self w) as Hr.
  destruct (build_prompt self w) as [[[prompt|]|e] w1]; cbn [fst snd] in Hw, Hr;
    subst w1.
  - right. exists prompt. split; [eauto|]. split; [reflexivity|].
    unfold invoke, response_text, after_event, outcome_value.
    destruct (model_invoke (trace w) prompt) as [[text|]|[]]; cbn [ret raise];
      try reflexivity.
    destruct (truthy (strip text)); reflexivity.
  - left. reflexivity.
  - left. destruct (Hr e eq_refl) as [->| ->]; reflexivity.
Qed.

Lemma run_invoked (self : Agent) (w : World) (prompt : str) :
  trace (snd (run self w)) = trace w ++ [EvInvoke (role self) prompt] ->
  run self w =
  (Ok (outcome_value (model_invoke (trace w) prompt)),
   after_event w (EvInvoke (role self) prompt)).
Proof.
  intros H. destruct (run_cases self w) as [E|(p & _ & _ & E)]; rewrite E in H |- *.
  - cbn [snd] in H. apply (f_equal (@List.length Event)) in H.
    rewrite length_app in H. cbn [List.length] in H. lia.
  - cbn [snd after_event trace] in H. apply app_inv_head in H.
    injection H as ->. reflexivity.
Qed.

(** [run] never raises. *)
Lemma run_returns (self : Agent) (w : World) : exists out, fst (run self w) = Ok out.
Proof.
  destruct (run_cases self w) as [E|(p & _ & _ & E)]; rewrite E; eauto.
Qed.

(** [run] writes nothing and reads nothing. *)
Lemma run_io (self : Agent) (w : World) :
  stdin (snd (run self w)) = stdin w /\ stdout (snd (run self w)) = stdout w.
Proof.
  destruct (run_cases self w) as [E|(p & _ & _ & E)]; rewrite E; auto.
Qed.

Lemma run_skips (self : Agent) (w : World) (k : str) :
  In k (required_fields (role self)) ->
  get_truthy (input_data self) k = false ->
  run self w = (Ok None, w).
Proof.
  intros Hin Hk. unfold run. destruct (model self); [|reflexivity].
  unfold try_except, bind. rewrite (build_prompt_missing self w k Hin Hk).
  reflexivity.
Qed.

(** ** The claims about [Agent.run] *)

(** C2.  For every agent and every input mapping, if a field its role
    requires is absent from the mapping, [run] returns [None] and leaves the
    world as it was: the model is not invoked.  The required fields are
    [symptoms] for GeneralDoctor, [preliminary_assessment] for Diagnosis,
    [diagnosis] for Medication, and these three and [medications] for
    FollowUp. *)
Theorem run_missing_field (self : Agent) (w : World) (k : str) :
  In k (required_fields (role self)) ->
  input_data self !! k = None ->
  run self w = (Ok None, w)
  /\ required_fields GeneralDoctor = [py "symptoms"]
  /\ required_fields Diagnosis = [py "preliminary_assessment"]
  /\ required_fields Medication = [py "diagnosis"]
  /\ required_fields FollowUp =
     [py "symptoms"; py "preliminary_assessment"; py "diagnosis"; py "medications"].
Proof.
  intros Hin Hk. split; [|repeat split].
  apply (run_skips self w k Hin). unfold get_truthy. rewrite Hk. reflexivity.
Qed.

(** C9.  A required field bound to the empty string is treated exactly
    like an absent one: [run] returns [None] without invoking the model,
    as it does on the same agent with the field removed. *)
Theorem run_empty_field (self : Agent) (w : World) (k : str) :
  In k (required_fields (role self)) ->
  input_data self !! k = Some [] ->
  run self w = (Ok None, w)
  /\ run (with_input_data self (delete k (input_data self))) w = run self w.
Proof.
  intros Hin Hk.
  assert (run self w = (Ok None, w)) as E.
  { apply (run_skips self w k Hin). unfold get_truthy. rewrite Hk. reflexivity. }
  split; [exact E|]. rewrite E.
  apply (run_skips _ w k); [exact Hin|].
  unfold get_truthy, with_input_data. cbn [input_data].
  rewrite lookup_delete_eq. reflexivity.
Qed.

(** C3.  When the invocation of the model raises the rate-limit error or
    the permission error, [run] returns a fixed string, one for each of
    the two errors, and both contain [Error]; nothing is raised and the
    result is not [None]. *)
Theorem run_provider_error (self : Agent) (w : World) (prompt : str) (e : exn) :
  trace (snd (run self w)) = trace w ++ [EvInvoke (role self) prompt] ->
  model_invoke (trace w) prompt = Raise e ->
  e = ResourceExhausted \/ e = Forbidden ->
  exists sentinel,
    fst (run self w) = Ok (Some sentinel)
    /\ sentinel =
       match e with
       | ResourceExhausted => py "Error: Rate limit exceeded, please try again later"
       | _ => py "Error: Invalid API key or insufficient permissions"
       end
    /\ contains (py "Error") sentinel = true.
Proof.
  intros Ht Hi He. rewrite (run_invoked self w prompt Ht), Hi.
  destruct He as [-> | ->]; eexists; (split; [reflexivity|]);
    split; reflexivity.
Qed.

(** C4.  When the invocation succeeds and the text of the response is empty
    or made of white space only, [run] returns the fixed string
    [Blocked: Response filtered due to content restrictions], which is
    neither of the two strings returned for provider errors. *)
Theorem run_blocked (self : Agent) (w : World) (prompt text : str) :
  trace (snd (run self w)) = trace w ++ [EvInvoke (role self) prompt] ->
  model_invoke (trace w) prompt = Ok (Content text) ->
  forallb isspace text = true ->
  fst (run self w) =
    Ok (Some (py "Blocked: Response filtered due to content restrictions"))
  /\ BLOCKED_SENTINEL <> RATE_LIMIT_SENTINEL
  /\ BLOCKED_SENTINEL <> PERMISSION_SENTINEL.
Proof.
  intros Ht Hi Hs. rewrite (run_invoked self w prompt Ht), Hi.
  apply strip_nil_iff in Hs. cbn [fst outcome_value]. rewrite Hs.
  split; [reflexivity|]. split; intros H; vm_compute in H; discriminate.
Qed.

(** C5.  When the invocation raises anything other than the rate-limit and
    the permission error, [run] returns [None]: the exception is caught and
    does not reach the caller. *)
Theorem run_other_failure (self : Agent) (w : World) (prompt : str) (e : exn) :
  trace (snd (run self w)) = trace w ++ [EvInvoke (role self) prompt] ->
  model_invoke (trace w) prompt = Raise e ->
  e <> ResourceExhausted -> e <> Forbidden ->
  fst (run self w) = Ok None.
Proof.
  intros Ht Hi H1 H2. rewrite (run_invoked self w prompt Ht), Hi.
  destruct e; try reflexivity; contradiction.
Qed.

(** C6.  For every role, when the required fields are present (and not
    empty) the prompt sent to the model is the template of the role with
    each named field replaced by the text bound to it, as it is, and the
    text around the fields unchanged: the template reads as brace-free
    literal text around the required fields, and the prompt is that same
    literal text around the field values. *)
Theorem prompt_verbatim (self : Agent) (w : World) :
  prompt_template self = create_prompt_template (role self) ->
  is_Some (model self) ->
  (forall k, In k (required_fields (role self)) ->
             exists v, input_data self !! k = Some v /\ v <> []) ->
  exists pieces,
    template_text pieces = create_prompt_template (role self)
    /\ forallb piece_ok pieces = true
    /\ field_names pieces = required_fields (role self)
    /\ trace (snd (run self w)) =
       trace w ++ [EvInvoke (role self) (fill (input_data self) pieces)].
Proof.
  intros Ht Hm Hreq.
  destruct (template_pieces (role self)) as (Hx & Hok & Hf).
  exists (pieces_of (create_prompt_template (role self))).
  repeat (split; [assumption|]).
  assert (forallb (get_truthy (input_data self)) (required_fields (role self)) = true)
    as Hall.
  { apply forallb_forall. intros k Hk. destruct (Hreq k Hk) as (v & Hv & Hne).
    unfold get_truthy. rewrite Hv. destruct v; [contradiction|reflexivity]. }
  destruct (run_cases self w) as [E|(p & _ & Hp & E)].
  - exfalso. unfold run in E. destruct Hm as [m Hm]. rewrite Hm in E.
    unfold try_except, bind in E. rewrite (build_prompt_eq self w Ht), Hall in E.
    unfold invoke in E.
    apply (f_equal (fun x => List.length (trace (snd x)))) in E.
    destruct (model_invoke (trace w) _) as [[text|]|[]];
      cbn [response_text ret raise fst snd trace negb] in E;
      try destruct (truthy (strip text));
      cbn [ret snd trace negb] in E; rewrite length_app in E;
      cbn [List.length] in E; lia.
  - rewrite (build_prompt_eq self w Ht), Hall in Hp. injection Hp as <-.
    rewrite E. reflexivity.
Qed.

(** ** The stages of the workflow *)

Lemma Agent_init_eq (r : Role) (d : gmap str str) (w : World) :
  Agent_init r (Some d) w =
  (Ok (mkAgent r d (create_prompt_template r)
         (if model_init (trace w ++ [EvInit r d])
          then Some ChatGoogleGenerativeAI else None)),
   after_event w (EvInit r d)).
Proof. reflexivity. Qed.

Lemma stage_bind {B : Type} (r : Role) (d : gmap str str)
    (k : option str -> M B) (w : World) :
  exists out w2,
    stage_run r d w out w2
    /\ (a <- Agent_init r (Some d) ;; out <- run a ;; k out) w = k out w2.
Proof.
  unfold stage_run, bind at 1. rewrite Agent_init_eq.
  set (a := mkAgent r d _ _). set (w1 := after_event w (EvInit r d)).
  unfold bind. destruct (run_returns a w1) as [out Hout].
  destruct (run a w1) as [res w2] eqn:E. cbn [fst] in Hout. subst res.
  exists out, w2. split; [|reflexivity]. exists a, w1. auto.
Qed.

(** A stage either returns [None] having invoked nothing, or had all its
    required fields and invoked the model once on the prompt of its role. *)
Lemma stage_run_cases (r : Role) (d : gmap str str) (w : World)
    (out : option str) (w2 : World) :
  stage_run r d w out w2 ->
  let w1 := after_event w (EvInit r d) in
  (out = None /\ w2 = w1)
  \/ (forallb (get_truthy d) (required_fields r) = true
      /\ out = outcome_value (model_invoke (trace w1) (prompt_for r d))
      /\ w2 = after_event w1 (EvInvoke r (prompt_for r d))).
Proof.
  intros (a & w1' & Ha & Hrun) w1. rewrite Agent_init_eq in Ha.
  injection Ha as <- <-. fold w1 in Hrun.
  set (a := mkAgent r d _ _) in Hrun.
  destruct (run_cases a w1) as [E|(p & _ & Hp & E)]; rewrite E in Hrun.
  - injection Hrun as <- <-. left. auto.
  - rewrite (build_prompt_eq a w1 eq_refl) in Hp. cbn [role input_data a] in Hp.
    destruct (forallb (get_truthy d) (required_fields r)) eqn:Hall;
      [|discriminate].
    injection Hp as <-. cbn [role a] in Hrun. injection Hrun as <- <-.
    right. auto.
Qed.

(** The events of a stage are all of its role; a stage reads and writes
    nothing. *)
Lemma stage_run_trace (r : Role) (d : gmap str str) (w : World)
    (out : option str) (w2 : World) :
  stage_run r d w out w2 ->
  exists evs, trace w2 = trace w ++ EvInit r d :: evs
              /\ Forall (fun e => event_role e = r) evs
              /\ stdin w2 = stdin w /\ stdout w2 = stdout w.
Proof.
  intros H. destruct (stage_run_cases r d w out w2 H) as [[_ ->]|(_ & _ & ->)].
  - exists []. cbn [trace after_event]. auto.
  - exists [EvInvoke r (prompt_for r d)]. cbn [trace after_event stdin stdout].
    rewrite <- app_assoc. repeat split. repeat constructor.
Qed.

Lemma passed_Some (out : option str) (r : str) :
  passed out = Some r -> out = Some r /\ stage_failed (Some r) = false.
Proof.
  unfold passed. destruct (stage_failed out) eqn:E; [discriminate|].
  intros ->. auto.
Qed.

Lemma passed_None (out : option str) :
  passed out = None -> stage_failed out = true.
Proof.
  unfold passed. destruct (stage_failed out) eqn:E; [reflexivity|].
  intros ->. discriminate E.
Qed.

(** [run_workflow], stage by stage. *)
Lemma run_workflow_cases (symptoms : str) (w : World) :
  exists o1 w1,
    stage_run GeneralDoctor (general_doctor_input symptoms) w o1 w1 /\
    match passed o1 with
    | None => run_workflow symptoms w = (Ok [(py "general_doctor", o1)], w1)
    | Some r1 =>
      exists o2 w2,
        stage_run Diagnosis (diagnosis_input r1) w1 o2 w2 /\
        match passed o2 with
        | None =>
            run_workflow symptoms w =
            (Ok [(py "general_doctor", o1); (py "diagnosis", o2)], w2)
        | Some r2 =>
          exists o3 w3,
            stage_run Medication (medication_input r2) w2 o3 w3 /\
            match passed o3 with
            | None =>
                run_workflow symptoms w =
                (Ok [(py "general_doctor", o1); (py "diagnosis", o2);
                     (py "medication", o3)], w3)
            | Some r3 =>
              exists o4 w4,
                stage_run FollowUp (follow_up_input symptoms r1 r2 r3) w3 o4 w4 /\
                run_workflow symptoms w =
                (Ok [(py "general_doctor", o1); (py "diagnosis", o2);
                     (py "medication", o3); (py "follow_up", o4)], w4)
            end
        end
    end.
Proof.
  unfold run_workflow, GeneralDoctorAgent.
  match goal with |- context [bind _ (fun a => bind (run a) ?k)] =>
    destruct (stage_bind GeneralDoctor (general_doctor_input symptoms) k w)
      as (o1 & w1 & S1 & E1)
  end.
  exists o1, w1. split; [exact S1|].
  unfold general_doctor_input in E1. rewrite E1. clear E1.
  destruct (passed o1) as [r1|]; [|reflexivity].
  unfold DiagnosisAgent.
  match goal with |- context [bind _ (fun a => bind (run a) ?k)] =>
    destruct (stage_bind Diagnosis (diagnosis_input r1) k w1)
      as (o2 & w2 & S2 & E2)
  end.
  exists o2, w2. split; [exact S2|].
  unfold diagnosis_input in E2. rewrite E2. clear E2.
  destruct (passed o2) as [r2|]; [|reflexivity].
  unfold MedicationAgent.
  match goal with |- context [bind _ (fun a => bind (run a) ?k)] =>
    destruct (stage_bind Medication (medication_input r2) k w2)
      as (o3 & w3 & S3 & E3)
  end.
  exists o3, w3. split; [exact S3|].
  unfold medication_input in E3. rewrite E3. clear E3.
  destruct (passed o3) as [r3|]; [|reflexivity].
  unfold FollowUpAgent.
  match goal with |- context [bind _ (fun a => bind (run a) ?k)] =>
    destruct (stage_bind FollowUp (follow_up_input symptoms r1 r2 r3) k w3)
      as (o4 & w4 & S4 & E4)
  end.
  exists o4, w4. split; [exact S4|].
  unfold follow_up_input in E4. rewrite E4. reflexivity.
Qed.

(** [run_workflow] always returns a dict. *)
Lemma run_workflow_returns (symptoms : str) (w : World) :
  exists results w', run_workflow symptoms w = (Ok results, w').
Proof.
  destruct (run_workflow_cases symptoms w) as (o1 & w1 & _ & H).
  destruct (passed o1); [|eauto]. destruct H as (o2 & w2 & _ & H).
  destruct (passed o2); [|eauto]. destruct H as (o3 & w3 & _ & H).
  destruct (passed o3); [|eauto]. destruct H as (o4 & w4 & _ & H). eauto.
Qed.


Lemma stage_failed_false (v : str) :
  stage_failed (Some v) = false ->
  v <> [] /\ contains (py "Error") v = false /\ contains (py "Blocked") v = false.
Proof.
  cbn [stage_failed]. intros H.
  apply orb_false_iff in H as [H H3]. apply orb_false_iff in H as [H1 H2].
  repeat split; auto. intros ->. discriminate.
Qed.

(** ** The claims about [run_workflow] *)

Ltac stage_events S evs :=
  let Ht := fresh "Ht" in let Hf := fresh "Hf" in
  apply stage_run_trace in S as (evs & Ht & Hf & _ & _).

Ltac role_bound :=
  repeat first
    [ apply Forall_app; split
    | apply Forall_cons; split
    | apply Forall_nil; exact I
    | solve [cbn [event_role stage_index]; lia]
    | solve [eapply Forall_impl; [eassumption|];
             intros ? ->; cbn [stage_index]; lia] ].

(** A dict that binds the key of one of the first three stages to a
    failing value has no later key, and comes with no event of a later
    stage. *)
Lemma run_workflow_stops_bound (symptoms : str) (w : World)
    (results : results_dict) (w' : World) (r : Role) (out : option str) :
  run_workflow symptoms w = (Ok results, w') ->
  r <> FollowUp ->
  dict_lookup results (stage_key r) = Some out ->
  stage_failed out = true ->
  keys results = take (S (stage_index r)) workflow_keys
  /\ exists evs,
       trace w' = trace w ++ evs
       /\ Forall (fun e => (stage_index (event_role e) <= stage_index r)%nat) evs.
Proof.
  intros Hrun Hr Hk Hfail.
  destruct (run_workflow_cases symptoms w) as (o1 & w1 & S1 & H).
  stage_events S1 e1.
  destruct (passed o1) as [r1|] eqn:P1.
  2:{ rewrite H in Hrun. injection Hrun as <- <-.
      destruct r; try contradiction; vm_compute in Hk; try discriminate.
      split; [reflexivity|]. eexists. split; [eassumption|]. role_bound. }
  apply passed_Some in P1 as [-> F1].
  destruct H as (o2 & w2 & S2 & H). stage_events S2 e2.
  destruct (passed o2) as [r2|] eqn:P2.
  2:{ rewrite H in Hrun. injection Hrun as <- <-.
      destruct r; try contradiction; vm_compute in Hk; try discriminate;
        injection Hk as <-; [congruence|].
      split; [reflexivity|]. eexists. split.
      - rewrite Ht0, Ht, <- app_assoc. reflexivity.
      - role_bound. }
  apply passed_Some in P2 as [-> F2].
  destruct H as (o3 & w3 & S3 & H). stage_events S3 e3.
  destruct (passed o3) as [r3|] eqn:P3.
  2:{ rewrite H in Hrun. injection Hrun as <- <-.
      destruct r; try contradiction; vm_compute in Hk; try discriminate;
        injection Hk as <-; [congruence|congruence|].
      split; [reflexivity|]. eexists. split.
      - rewrite Ht1, Ht0, Ht, <- !app_assoc. reflexivity.
      - role_bound. }
  apply passed_Some in P3 as [-> F3].
  destruct H as (o4 & w4 & S4 & H).
  rewrite H in Hrun. injection Hrun as <- <-.
  destruct r; try contradiction; vm_compute in Hk; injection Hk as <-; congruence.
Qed.

Lemma stage_run_det (r : Role) (d : gmap str str) (w : World)
    (o o' : option str) (w2 w2' : World) :
  stage_run r d w o w2 -> stage_run r d w o' w2' -> o = o' /\ w2 = w2'.
Proof.
  intros (a & w1 & Ha & Hr) (a' & w1' & Ha' & Hr').
  rewrite Ha in Ha'. injection Ha' as <- <-. rewrite Hr in Hr'.
  injection Hr' as <- <-. auto.
Qed.

Lemma passed_failed (out : option str) : stage_failed out = true -> passed out = None.
Proof. unfold passed. intros ->. reflexivity. Qed.

Lemma passed_ok (r : str) : stage_failed (Some r) = false -> passed (Some r) = Some r.
Proof. unfold passed. intros ->. reflexivity. Qed.

(** Every run of the workflow reaches some stage, and stops there: at one
    of the first three because its output fails the test, or at the
    follow-up. *)
Lemma run_workflow_reaches (symptoms : str) (w : World) :
  exists r results out w',
    workflow_reached symptoms w r results out w'
    /\ (r = FollowUp \/ stage_failed out = true)
    /\ run_workflow symptoms w = (Ok results, w').
Proof.
  destruct (run_workflow_cases symptoms w) as (o1 & w1 & S1 & H).
  destruct (passed o1) as [r1|] eqn:P1.
  2:{ exists GeneralDoctor, [(py "general_doctor", o1)], o1, w1.
      split; [split; [exact S1|reflexivity]|].
      split; [right; apply passed_None; exact P1|exact H]. }
  apply passed_Some in P1 as [-> F1].
  destruct H as (o2 & w2 & S2 & H).
  destruct (passed o2) as [r2|] eqn:P2.
  2:{ exists Diagnosis, [(py "general_doctor", Some r1); (py "diagnosis", o2)], o2, w2.
      split; [exists r1, w1; auto|].
      split; [right; apply passed_None; exact P2|exact H]. }
  apply passed_Some in P2 as [-> F2].
  destruct H as (o3 & w3 & S3 & H).
  destruct (passed o3) as [r3|] eqn:P3.
  2:{ exists Medication,
        [(py "general_doctor", Some r1); (py "diagnosis", Some r2);
         (py "medication", o3)], o3, w3.
      split; [exists r1, w1, r2, w2; auto 10|].
      split; [right; apply passed_None; exact P3|exact H]. }
  apply passed_Some in P3 as [-> F3].
  destruct H as (o4 & w4 & S4 & H).
  exists FollowUp,
    [(py "general_doctor", Some r1); (py "diagnosis", Some r2);
     (py "medication", Some r3); (py "follow_up", o4)], o4, w4.
  split; [exists r1, w1, r2, w2, r3, w3; auto 10|].
  split; [left; reflexivity|exact H].
Qed.

(** C1.  When the general-doctor, the diagnosis or the medication stage is
    reached and its agent returns [None] or a text with a failure marker,
    [run_workflow] halts there: it returns the results gathered so far,
    that stage's output included, in the world as that stage left it, so
    that no agent of a later stage is constructed and none is invoked.
    The keys returned are those up to that stage, and every event since
    the start belongs to that stage or to an earlier one. *)
Theorem run_workflow_halts (symptoms : str) (w : World) (r : Role)
    (results : results_dict) (out : option str) (w' : World) :
  workflow_reached symptoms w r results out w' ->
  r <> FollowUp ->
  stage_failed out = true ->
  run_workflow symptoms w = (Ok results, w')
  /\ keys results = take (S (stage_index r)) workflow_keys
  /\ exists evs,
       trace w' = trace w ++ evs
       /\ Forall (fun e => (stage_index (event_role e) <= stage_index r)%nat) evs.
Proof.
  intros Hreach Hr Hfail.
  assert (run_workflow symptoms w = (Ok results, w')
          /\ dict_lookup results (stage_key r) = Some out) as [Hrun Hk].
  { destruct (run_workflow_cases symptoms w) as (o1 & w1 & S1 & H).
    destruct r; [| | |contradiction]; cbn [workflow_reached] in Hreach.
    - destruct Hreach as (R1 & ->).
      destruct (stage_run_det _ _ _ _ _ _ _ S1 R1) as [-> ->].
      rewrite (passed_failed _ Hfail) in H. split; [exact H|reflexivity].
    - destruct Hreach as (r1 & wa & R1 & F1 & R2 & ->).
      destruct (stage_run_det _ _ _ _ _ _ _ S1 R1) as [-> ->].
      rewrite (passed_ok _ F1) in H. destruct H as (o2 & w2 & S2 & H).
      destruct (stage_run_det _ _ _ _ _ _ _ S2 R2) as [-> ->].
      rewrite (passed_failed _ Hfail) in H. split; [exact H|reflexivity].
    - destruct Hreach as (r1 & wa & r2 & wb & R1 & F1 & R2 & F2 & R3 & ->).
      destruct (stage_run_det _ _ _ _ _ _ _ S1 R1) as [-> ->].
      rewrite (passed_ok _ F1) in H. destruct H as (o2 & w2 & S2 & H).
      destruct (stage_run_det _ _ _ _ _ _ _ S2 R2) as [-> ->].
      rewrite (passed_ok _ F2) in H. destruct H as (o3 & w3 & S3 & H).
      destruct (stage_run_det _ _ _ _ _ _ _ S3 R3) as [-> ->].
      rewrite (passed_failed _ Hfail) in H. split; [exact H|reflexivity]. }
  split; [exact Hrun|].
  exact (run_workflow_stops_bound symptoms w results w' r out Hrun Hr Hk Hfail).
Qed.



(** C10.  The dict [run_workflow] returns has as keys a non-empty prefix
    of [general_doctor], [diagnosis], [medication], [follow_up], in this
    order; every key but the last one present is bound to a text that is
    not empty and contains neither [Error] nor [Blocked]; and the value
    of [follow_up], when present, is what running the FollowUp agent
    returned, whatever it is. *)
Theorem run_workflow_invariant (symptoms : str) (w : World) :
  exists results w',
    run_workflow symptoms w = (Ok results, w')
    /\ exists n,
         (1 <= n <= 4)%nat
         /\ keys results = take n workflow_keys
         /\ (forall r, (S (stage_index r) < n)%nat ->
               exists v, dict_lookup results (stage_key r) = Some (Some v)
                         /\ v <> []
                         /\ contains (py "Error") v = false
                         /\ contains (py "Blocked") v = false)
         /\ (forall out, dict_lookup results (py "follow_up") = Some out ->
               exists r1 r2 r3 agent w3 w4,
                 dict_lookup results (py "general_doctor") = Some (Some r1)
                 /\ dict_lookup results (py "diagnosis") = Some (Some r2)
                 /\ dict_lookup results (py "medication") = Some (Some r3)
                 /\ FollowUpAgent symptoms r1 r2 r3 w3 = (Ok agent, w4)
                 /\ run agent w4 = (Ok out, w')).
Proof.
  destruct (run_workflow_cases symptoms w) as (o1 & w1 & S1 & H).
  destruct (passed o1) as [r1|] eqn:P1.
  2:{ eexists _, _. split; [exact H|]. exists 1%nat.
      split; [lia|]. split; [reflexivity|]. split.
      - intros r Hr. lia.
      - intros out Hk. vm_compute in Hk. discriminate. }
  apply passed_Some in P1 as [-> F1]. apply stage_failed_false in F1.
  destruct H as (o2 & w2 & S2 & H).
  destruct (passed o2) as [r2|] eqn:P2.
  2:{ eexists _, _. split; [exact H|]. exists 2%nat.
      split; [lia|]. split; [reflexivity|]. split.
      - intros [] Hr; cbn [stage_index] in Hr; try lia.
        exists r1. split; [reflexivity|exact F1].
      - intros out Hk. vm_compute in Hk. discriminate. }
  apply passed_Some in P2 as [-> F2]. apply stage_failed_false in F2.
  destruct H as (o3 & w3 & S3 & H).
  destruct (passed o3) as [r3|] eqn:P3.
  2:{ eexists _, _. split; [exact H|]. exists 3%nat.
      split; [lia|]. split; [reflexivity|]. split.
      - intros [] Hr; cbn [stage_index] in Hr; try lia.
        + exists r1. split; [reflexivity|exact F1].
        + exists r2. split; [reflexivity|exact F2].
      - intros out Hk. vm_compute in Hk. discriminate. }
  apply passed_Some in P3 as [-> F3]. apply stage_failed_false in F3.
  destruct H as (o4 & w4 & S4 & H).
  eexists _, _. split; [exact H|]. exists 4%nat.
  split; [lia|]. split; [reflexivity|]. split.
  - intros [] Hr; cbn [stage_index] in Hr; try lia.
    + exists r1. split; [reflexivity|exact F1].
    + exists r2. split; [reflexivity|exact F2].
    + exists r3. split; [reflexivity|exact F3].
  - intros out Hk. vm_compute in Hk. injection Hk as <-.
    destruct S4 as (a & w3' & Ha & Hrun).
    exists r1, r2, r3, a, w3, w3'. repeat (split; [reflexivity|]).
    split; [exact Ha|exact Hrun].
Qed.

(** ** The menu *)

Lemma menu_option_valid (choice : str) :
  is_Some (menu_option choice) <->
  In choice [py "1"; py "2"; py "3"; py "4"; py "5"].
Proof.
  unfold menu_option. cbn [In].
  repeat match goal with
  | |- context [str_eqb choice ?k] =>
      let E := fresh "E" in
      destruct (str_eqb choice k) eqn:E;
      [apply str_eqb_eq in E; split; [intros _; auto 10|intros _; eauto]|]
  end.
  split; [intros [x Hx]; discriminate|].
  intros H. repeat destruct H as [<-|H]; try contradiction;
    rewrite str_eqb_refl in *; discriminate.
Qed.

Lemma bind_eq {A B : Type} (m : M A) (k : A -> M B) (w : World) (a : A) (w1 : World) :
  m w = (Ok a, w1) -> bind m k w = k a w1.
Proof. intros H. unfold bind. rewrite H. reflexivity. Qed.

(** The workflow reads nothing and writes nothing. *)
Lemma run_workflow_io (symptoms : str) (w : World) (results : results_dict) (w' : World) :
  run_workflow symptoms w = (Ok results, w') ->
  stdin w' = stdin w /\ stdout w' = stdout w.
Proof.
  intros Hrun.
  destruct (run_workflow_cases symptoms w) as (o1 & w1 & S1 & H).
  apply stage_run_trace in S1 as (? & _ & _ & I1 & O1).
  destruct (passed o1).
  2:{ rewrite H in Hrun. injection Hrun as <- <-. auto. }
  destruct H as (o2 & w2 & S2 & H).
  apply stage_run_trace in S2 as (? & _ & _ & I2 & O2).
  destruct (passed o2).
  2:{ rewrite H in Hrun. injection Hrun as <- <-. split; congruence. }
  destruct H as (o3 & w3 & S3 & H).
  apply stage_run_trace in S3 as (? & _ & _ & I3 & O3).
  destruct (passed o3).
  2:{ rewrite H in Hrun. injection Hrun as <- <-. split; congruence. }
  destruct H as (o4 & w4 & S4 & H).
  apply stage_run_trace in S4 as (? & _ & _ & I4 & O4).
  rewrite H in Hrun. injection Hrun as <- <-. split; congruence.
Qed.

(** [run] returns no empty text. *)
Lemma run_some_truthy (self : Agent) (w : World) (out : option str) (w' : World) (s : str) :
  run self w = (Ok out, w') -> out = Some s -> truthy s = true.
Proof.
  intros Hrun ->.
  destruct (run_cases self w) as [E|(p & _ & _ & E)]; rewrite E in Hrun;
    [discriminate|].
  injection Hrun as Ho _. unfold outcome_value in Ho.
  destruct (model_invoke (trace w) p) as [[text|]|[]]; try discriminate.
  - destruct (truthy (strip text)) eqn:Ht; injection Ho as <-; [|reflexivity].
    destruct text; [discriminate Ht|reflexivity].
  - injection Ho as <-. reflexivity.
  - injection Ho as <-. reflexivity.
Qed.

(** What [main] prints for the result of an agent it has run. *)
Lemma result_or_no_output_run (self : Agent) (w : World) (out : option str) (w' : World) :
  run self w = (Ok out, w') -> result_or_no_output out = shown_result out.
Proof.
  intros Hrun. destruct out as [s|]; [|reflexivity].
  cbn [result_or_no_output shown_result].
  rewrite (run_some_truthy self w _ w' s Hrun eq_refl). reflexivity.
Qed.

Lemma dict_lookup_In (d : results_dict) (k : str) (v : option str) :
  dict_lookup d k = Some v -> In (k, v) d.
Proof.
  induction d as [|[k' v'] d IH]; cbn [dict_lookup]; [discriminate|].
  destruct (str_eqb k' k) eqn:E.
  - apply str_eqb_eq in E as ->. intros [= ->]. left. reflexivity.
  - intros H. right. exact (IH H).
Qed.

Lemma dict_lookup_not_key (d : results_dict) (k : str) :
  dict_lookup d k = None -> ~ In k (keys d).
Proof.
  induction d as [|[k' v'] d IH]; cbn [dict_lookup keys map fst]; [auto|].
  destruct (str_eqb k' k) eqn:E; [discriminate|].
  intros H [->|Hin].
  - rewrite str_eqb_refl in E. discriminate.
  - exact (IH H Hin).
Qed.

(** What [main] prints for a key of the results. *)
Lemma get_or_no_output_shown (results : results_dict) (k : str) :
  shown_entry results k (show (get_or_no_output results k)).
Proof.
  unfold shown_entry, get_or_no_output.
  destruct (dict_lookup results k) as [[s|]|] eqn:E.
  - left. exists s. split; [exact (dict_lookup_In _ _ _ E)|reflexivity].
  - right. left. split; [exact (dict_lookup_In _ _ _ E)|reflexivity].
  - right. right. split; [exact (dict_lookup_not_key _ _ E)|reflexivity].
Qed.

Ltac menu_step :=
  cbn [bind print write ret input get_user_input stdin stdout trace].

(** One agent constructed on [d] and run, inside [main]. *)
Ltac menu_agent :=
  match goal with |- context [bind (Agent_init ?r (Some ?d)) _ ?w1] =>
    let out := fresh "out" in let w3 := fresh "w3" in
    let Hr := fresh "Hr" in let Hi := fresh "Hi" in let Ho := fresh "Ho" in
    let Hout := fresh "Hout" in let res := fresh "res" in
    rewrite (bind_eq _ _ _ _ _ (Agent_init_eq r d w1));
    match goal with |- context [bind (run ?a) _ ?w2] =>
      destruct (run_returns a w2) as [out Hout];
      destruct (run_io a w2) as [Hi Ho];
      destruct (run a w2) as [res w3] eqn:Hr; cbn [fst snd] in Hout, Hi, Ho;
      subst res; rewrite (bind_eq _ _ _ _ _ Hr); menu_step;
      eexists; split; [reflexivity|]; cbn [stdin stdout trace];
      split; [rewrite Hi; reflexivity|];
      split; [assumption|];
      exists a, out, w1, w2, w3;
      split; [reflexivity|]; split; [reflexivity|]; split; [exact Hr|];
      split; [reflexivity|]; rewrite Ho; cbn [after_event stdout];
      rewrite (result_or_no_output_run _ _ _ _ Hr);
      rewrite <- !app_assoc; reflexivity
    end
  end.

(** C8.  [main] prints the menu and reads one line; the choice is that
    line without its surrounding white space.  The choices [1] to [5],
    and no other, are accepted: for them [main] reads one more line for
    each field of the chosen option, strips it, runs the workflow (choice
    [1]) or the one agent of the option on these fields, and prints the
    result last: under its heading, the text the agent returned, or
    [No output available] when it returned [None]; for the workflow, under
    each of the four headings, the text bound to the key of the stage,
    [None] for a key bound to [None], and [No output available] for a key
    that is not in the results.  For any other choice it reads nothing
    more, prints the invalid-choice message, and no agent is constructed
    or run. *)
Theorem main_menu (w : World) (line : str) (rest : list str) :
  stdin w = line :: rest ->
  (lines_needed (strip line) <= List.length rest)%nat ->
  exists w',
    main w = (Ok tt, w')
    /\ stdin w' = drop (lines_needed (strip line)) rest
    /\ (is_Some (menu_option (strip line)) <->
        In (strip line) [py "1"; py "2"; py "3"; py "4"; py "5"])
    /\ match menu_option (strip line) with
       | None =>
           trace w' = trace w
           /\ stdout w' =
              stdout w ++ menu_text ++
              [printed (py "Invalid choice. Please select a number between 1 and 5.")]
       | Some Full =>
           exists symptoms results w1 w2 c1 c2 c3 c4,
             [symptoms] = map strip (take 1 rest)
             /\ trace w1 = trace w
             /\ run_workflow symptoms w1 = (Ok results, w2)
             /\ trace w' = trace w2
             /\ shown_entry results (py "general_doctor") c1
             /\ shown_entry results (py "diagnosis") c2
             /\ shown_entry results (py "medication") c3
             /\ shown_entry results (py "follow_up") c4
             /\ stdout w' =
                stdout w2 ++
                [printed (result_header GeneralDoctor); printed c1;
                 printed (result_header Diagnosis); printed c2;
                 printed (result_header Medication); printed c3;
                 printed (result_header FollowUp); printed c4]
       | Some (Single r) =>
           exists agent out w1 w2 w3,
             trace w1 = trace w
             /\ Agent_init r
                  (Some (input_of_lines r (take (List.length (required_fields r)) rest)))
                  w1 = (Ok agent, w2)
             /\ run agent w2 = (Ok out, w3)
             /\ trace w' = trace w3
             /\ stdout w' =
                stdout w3 ++
                [printed (result_header r); printed (shown_result out)]
       end.
Proof.
  intros Hin Hlen.
  pose proof (menu_option_valid (strip line)) as Hvalid.
  unfold main.
  cbn [bind print write ret input get_user_input stdin stdout trace].
  rewrite Hin.
  cbn [bind print write ret input get_user_input stdin stdout trace].
  unfold lines_needed in *. unfold menu_option in *.
  destruct (str_eqb (strip line) (py "1")) eqn:E1.
  { destruct rest as [|l1 rest]; [cbn in Hlen; lia|]. clear Hlen.
    cbn [bind print write ret input get_user_input stdin stdout trace].
    match goal with |- context [bind (run_workflow ?s) _ ?w1] =>
      destruct (run_workflow_returns s w1) as (results & w2 & Hrw)
    end.
    rewrite (bind_eq _ _ _ _ _ Hrw).
    cbn [bind print write ret input get_user_input stdin stdout trace].
    eexists. split; [reflexivity|]. cbn [stdin stdout trace].
    destruct (run_workflow_io _ _ _ _ Hrw) as [Hi Ho]. cbn [stdin stdout] in Hi, Ho.
    split; [exact Hi|]. split; [exact Hvalid|].
    eexists _, _, _, _, _, _, _, _.
    split; [reflexivity|]. split; [|split; [exact Hrw|]].
    - reflexivity.
    - split; [reflexivity|].
      repeat (split; [apply get_or_no_output_shown|]).
      rewrite <- !app_assoc. reflexivity. }
  destruct (str_eqb (strip line) (py "2")) eqn:E2.
  { destruct rest as [|l1 rest]; [cbn in Hlen; lia|]. clear Hlen.
    menu_step. unfold GeneralDoctorAgent.
    menu_agent.
  }
  destruct (str_eqb (strip line) (py "3")) eqn:E3.
  { destruct rest as [|l1 rest]; [cbn in Hlen; lia|]. clear Hlen.
    menu_step. unfold DiagnosisAgent.
    menu_agent. }
  destruct (str_eqb (strip line) (py "4")) eqn:E4.
  { destruct rest as [|l1 rest]; [cbn in Hlen; lia|]. clear Hlen.
    menu_step. unfold MedicationAgent.
    menu_agent. }
  destruct (str_eqb (strip line) (py "5")) eqn:E5.
  { destruct rest as [|l1 [|l2 [|l3 [|l4 rest]]]]; try (cbn in Hlen; lia).
    clear Hlen. menu_step. unfold FollowUpAgent.
    menu_agent. }
  menu_step. eexists. split; [reflexivity|]. cbn [stdin stdout trace].
  split; [reflexivity|]. split; [exact Hvalid|]. split; [reflexivity|].
  rewrite <- !app_assoc. reflexivity.
Qed.

(** ** More about [run] *)

(** An agent that has its model and all its fields invokes the model on the
    prompt of its role. *)
Lemma run_ready (self : Agent) (w : World) :
  prompt_template self = create_prompt_template (role self) ->
  is_Some (model self) ->
  forallb (get_truthy (input_data self)) (required_fields (role self)) = true ->
  run self w =
  (Ok (outcome_value
         (model_invoke (trace w) (prompt_for (role self) (input_data self)))),
   after_event w (EvInvoke (role self) (prompt_for (role self) (input_data self)))).
Proof.
  intros Ht [m Hm] Hall. unfold run. rewrite Hm.
  unfold try_except, bind. rewrite (build_prompt_eq self w Ht), Hall.
  unfold invoke, response_text, after_event, outcome_value.
  destruct (model_invoke (trace w) _) as [[text|]|[]]; cbn [ret raise];
    try reflexivity.
  destruct (truthy (strip text)); reflexivity.
Qed.

Lemma forallb_false {A : Type} (f : A -> bool) (l : list A) :
  forallb f l = false -> exists x, In x l /\ f x = false.
Proof.
  induction l as [|a l IH]; cbn [forallb]; [discriminate|].
  destruct (f a) eqn:E; cbn [andb].
  - intros H. destruct (IH H) as (x & Hx & Hf). exists x. split; [right|]; assumption.
  - intros _. exists a. split; [left; reflexivity|exact E].
Qed.

Lemma truthy_false (s : str) : truthy s = false <-> s = [].
Proof. destruct s; split; intros H; (reflexivity || discriminate). Qed.

(** X1.  What [run] returns is never blank: it is [None] or a text with a
    character that is not white space. *)
Theorem run_never_blank (self : Agent) (w : World) (s : str) :
  fst (run self w) = Ok (Some s) -> strip s <> [].
Proof.
  destruct (run_cases self w) as [E|(p & _ & _ & E)]; rewrite E; cbn [fst];
    [discriminate|].
  unfold outcome_value.
  destruct (model_invoke (trace w) p) as [[text|]|[]]; try discriminate.
  - destruct (truthy (strip text)) eqn:Ht; intros [= <-].
    + intros H. rewrite H in Ht. discriminate.
    + intros H. vm_compute in H. discriminate.
  - intros [= <-] H. vm_compute in H. discriminate.
  - intros [= <-] H. vm_compute in H. discriminate.
Qed.

(** X2.  On the success path [run] returns the text of the response as the
    model gave it, its leading and trailing white space included. *)
Theorem run_success_verbatim (self : Agent) (w : World) (prompt text : str) :
  trace (snd (run self w)) = trace w ++ [EvInvoke (role self) prompt] ->
  model_invoke (trace w) prompt = Ok (Content text) ->
  strip text <> [] ->
  fst (run self w) = Ok (Some text).
Proof.
  intros Ht Hi Hs. rewrite (run_invoked self w prompt Ht), Hi.
  cbn [fst outcome_value]. destruct (truthy (strip text)) eqn:E; [reflexivity|].
  apply truthy_false in E. contradiction.
Qed.

(** X3.  [run] reads nothing, writes nothing and constructs nothing; it invokes
    the model of its own role at most once. *)
Theorem run_effects (self : Agent) (w : World) :
  stdin (snd (run self w)) = stdin w
  /\ stdout (snd (run self w)) = stdout w
  /\ (trace (snd (run self w)) = trace w
      \/ exists prompt,
           trace (snd (run self w)) = trace w ++ [EvInvoke (role self) prompt]).
Proof.
  destruct (run_cases self w) as [E|(p & _ & _ & E)]; rewrite E; cbn [snd].
  - auto.
  - repeat split. right. exists p. reflexivity.
Qed.

(** X4.  For the three roles with one field, [run] looks at that field only:
    whatever else the input dict holds changes nothing. *)
Theorem run_ignores_other_keys (self : Agent) (d : gmap str str) (w : World) (k : str) :
  required_fields (role self) = [k] ->
  d !! k = input_data self !! k ->
  run (with_input_data self d) w = run self w.
Proof.
  intros Hk Hd. unfold run, with_input_data. cbn [model].
  destruct (model self); [|reflexivity].
  unfold try_except, bind, build_prompt, get_truthy, getitem, invoke.
  cbn [role input_data prompt_template].
  revert Hk. destruct (role self); cbn [required_fields]; intros Hk;
    try (injection Hk as <-; rewrite Hd; reflexivity).
  unfold required_keys in Hk. discriminate Hk.
Qed.

(** X5.  When [run] returns [None]: the agent has no model, or a required field
    is absent or empty, or the response is not a text, or the invocation
    raised something else than the two provider errors. *)
Theorem run_none_iff (self : Agent) (w : World) :
  prompt_template self = create_prompt_template (role self) ->
  fst (run self w) = Ok None <->
  (model self = None
   \/ (exists k, In k (required_fields (role self))
                 /\ get_truthy (input_data self) k = false)
   \/ model_invoke (trace w) (prompt_for (role self) (input_data self)) = Ok NonText
   \/ (exists e, model_invoke (trace w) (prompt_for (role self) (input_data self))
                 = Raise e
                 /\ e <> ResourceExhausted /\ e <> Forbidden)).
Proof.
  intros Ht. split.
  - intros Hnone. destruct (model self) as [m|] eqn:Hm; [|auto].
    destruct (forallb (get_truthy (input_data self)) (required_fields (role self)))
      eqn:Hall.
    + rewrite (run_ready self w Ht) in Hnone by eauto. cbn [fst] in Hnone.
      right. right. unfold outcome_value in Hnone.
      destruct (model_invoke (trace w) _) as [[text|]|e]; [|auto|].
      * destruct (truthy (strip text)); discriminate.
      * right. exists e. split; [reflexivity|].
        destruct e; try discriminate; split; discriminate.
    + right. left. apply forallb_false. exact Hall.
  - intros [Hm|[(k & Hk & Hf)|H]].
    + unfold run. rewrite Hm. reflexivity.
    + rewrite (run_skips self w k Hk Hf). reflexivity.
    + destruct (run_cases self w) as [E|(p & _ & Hp & E)]; rewrite E; [reflexivity|].
      rewrite (build_prompt_eq self w Ht) in Hp.
      destruct (forallb _ _); [|discriminate]. injection Hp as <-.
      cbn [fst]. destruct H as [-> |(e & -> & H1 & H2)]; [reflexivity|].
      destruct e; try reflexivity; contradiction.
Qed.

(** ** More about the templates and the constructor *)

Lemma format_from_field_missing (kwargs : gmap str str) (name s : str) :
  identifier name = true ->
  kwargs !! name = None ->
  format_from kwargs (lbrace :: name ++ rbrace :: s) None = Raise KeyError.
Proof.
  intros Hid Hv. destruct name as [|c name]; [discriminate|].
  pose proof Hid as Hid'. cbn [identifier] in Hid'.
  apply andb_true_iff in Hid' as [Hc Hn].
  destruct (ident_char_not_brace c (ident_start_char c Hc)) as [Hl Hr].
  change (lbrace :: (c :: name) ++ rbrace :: s)
    with (lbrace :: c :: (name ++ rbrace :: s)).
  cbn [format_from]. rewrite N.eqb_refl, Hl, Hr.
  rewrite (format_from_name kwargs name ([] ++ [c]) s Hn).
  cbn [app]. rewrite Hid, Hv. reflexivity.
Qed.

Lemma format_pieces (kwargs : gmap str str) (ps : list Piece) :
  forallb piece_ok ps = true ->
  format (template_text ps) kwargs =
  if forallb (has_key kwargs) (field_names ps) then Ok (fill kwargs ps)
  else Raise KeyError.
Proof.
  unfold format. induction ps as [|[text|name] ps IH]; intros Hok.
  - reflexivity.
  - cbn [forallb piece_ok] in Hok. apply andb_true_iff in Hok as [Ht Hps].
    cbn [template_text fill field_names].
    rewrite (format_from_literal _ _ _ Ht), (IH Hps).
    destruct (forallb (has_key kwargs) _); reflexivity.
  - cbn [forallb piece_ok] in Hok. apply andb_true_iff in Hok as [Hid Hps].
    cbn [template_text fill field_names forallb]. unfold has_key at 1.
    destruct (kwargs !! name) as [v|] eqn:Hv.
    + rewrite (format_from_field _ _ _ v Hid Hv), (IH Hps). cbn [andb default].
      destruct (forallb (has_key kwargs) _); reflexivity.
    + rewrite (format_from_field_missing _ _ _ Hid Hv). reflexivity.
Qed.

(** X6.  The template of a role names the required fields of the role and no
    other: formatting it gives the prompt when the keyword arguments bind
    them all, whatever the texts bound, and raises [KeyError] when one is
    not bound. *)
Theorem template_format (r : Role) (kwargs : gmap str str) :
  format (create_prompt_template r) kwargs =
  if forallb (has_key kwargs) (required_fields r) then Ok (prompt_for r kwargs)
  else Raise KeyError.
Proof.
  destruct (template_pieces r) as (Ht & Hok & Hf).
  rewrite <- Ht at 1. rewrite (format_pieces _ _ Hok), Hf. reflexivity.
Qed.

Lemma first_required_field (r : Role) : exists k, In k (required_fields r).
Proof. destruct r; eexists; left; reflexivity. Qed.

(** X7.  An agent constructed without input data, or on an empty dict, has an
    empty input dict, and running it returns [None] without invoking the
    model, whatever its role. *)
Theorem agent_without_input (r : Role) (d : option (gmap str str))
    (w : World) (a : Agent) (w1 : World) :
  d = None \/ d = Some ∅ ->
  Agent_init r d w = (Ok a, w1) ->
  input_data a = ∅ /\ run a w1 = (Ok None, w1).
Proof.
  intros Hd Ha.
  assert (Agent_init r d w = Agent_init r (Some ∅) w) as E
    by (destruct Hd as [-> | ->]; reflexivity).
  rewrite E, Agent_init_eq in Ha. injection Ha as <- <-.
  split; [reflexivity|].
  destruct (first_required_field r) as [k Hk].
  apply (run_skips _ _ k); [exact Hk|].
  unfold get_truthy. cbn [input_data]. rewrite lookup_empty. reflexivity.
Qed.

(** ** More about [run_workflow] *)

(** A stage whose model could not be constructed, or one of whose fields
    is absent or empty, returns [None] and only constructs its agent. *)
Lemma stage_none (r : Role) (d : gmap str str) (w : World)
    (out : option str) (w2 : World) :
  model_init (trace w ++ [EvInit r d]) = false
  \/ forallb (get_truthy d) (required_fields r) = false ->
  stage_run r d w out w2 ->
  out = None /\ w2 = after_event w (EvInit r d).
Proof.
  intros Hno (a & w1 & Ha & Hr). rewrite Agent_init_eq in Ha.
  injection Ha as <- <-. destruct Hno as [Hm|Hf].
  - unfold run in Hr. cbn [model] in Hr. rewrite Hm in Hr.
    injection Hr as <- <-. auto.
  - apply forallb_false in Hf as (k & Hk & Hf).
    rewrite (run_skips _ _ k) in Hr by assumption.
    injection Hr as <- <-. auto.
Qed.

(** A stage that has its model and its fields invokes the model once. *)
Lemma stage_ready (r : Role) (d : gmap str str) (w : World)
    (out : option str) (w2 : World) :
  model_init (trace w ++ [EvInit r d]) = true ->
  forallb (get_truthy d) (required_fields r) = true ->
  stage_run r d w out w2 ->
  out = outcome_value (model_invoke (trace w ++ [EvInit r d]) (prompt_for r d))
  /\ w2 = after_event (after_event w (EvInit r d)) (EvInvoke r (prompt_for r d)).
Proof.
  intros Hm Hf (a & w1 & Ha & Hr). rewrite Agent_init_eq in Ha.
  injection Ha as <- <-. rewrite Hm in Hr.
  rewrite run_ready in Hr; [|reflexivity|eexists; reflexivity|exact Hf].
  injection Hr as <- <-. auto.
Qed.

Lemma general_doctor_fields (symptoms : str) :
  forallb (get_truthy (general_doctor_input symptoms)) (required_fields GeneralDoctor)
  = truthy symptoms.
Proof.
  cbn [required_fields forallb]. unfold get_truthy, general_doctor_input.
  rewrite lookup_singleton_eq. apply andb_true_r.
Qed.

(** X8.  With empty symptoms, or when the chat model of the first agent cannot
    be constructed, [run_workflow] returns the dict that binds
    [general_doctor] to [None]; it has constructed one agent and invoked
    no model. *)
Theorem run_workflow_not_started (symptoms : str) (w : World) :
  symptoms = []
  \/ model_init (trace w ++ [EvInit GeneralDoctor (general_doctor_input symptoms)])
     = false ->
  run_workflow symptoms w =
  (Ok [(py "general_doctor", None)],
   after_event w (EvInit GeneralDoctor (general_doctor_input symptoms))).
Proof.
  intros Hno. destruct (run_workflow_cases symptoms w) as (o1 & w1 & S1 & H).
  apply stage_none in S1 as [-> ->].
  - exact H.
  - destruct Hno as [-> |Hm]; [right|left; exact Hm].
    rewrite general_doctor_fields. reflexivity.
Qed.

(** X9.  With symptoms that are not empty, blank or not, and the chat model
    constructed, the first agent invokes the model, on the prompt made of
    the symptoms as given; what the model gives back is the value of
    [general_doctor]. *)
Theorem run_workflow_started (symptoms : str) (w : World) :
  symptoms <> [] ->
  model_init (trace w ++ [EvInit GeneralDoctor (general_doctor_input symptoms)])
  = true ->
  exists results w' evs,
    run_workflow symptoms w = (Ok results, w')
    /\ trace w' =
       trace w ++ EvInit GeneralDoctor (general_doctor_input symptoms)
               :: EvInvoke GeneralDoctor
                    (prompt_for GeneralDoctor (general_doctor_input symptoms))
               :: evs
    /\ dict_lookup results (py "general_doctor") =
       Some (outcome_value
               (model_invoke
                  (trace w ++ [EvInit GeneralDoctor (general_doctor_input symptoms)])
                  (prompt_for GeneralDoctor (general_doctor_input symptoms)))).
Proof.
  intros Hs Hm. destruct (run_workflow_cases symptoms w) as (o1 & w1 & S1 & H).
  apply stage_ready in S1 as [Ho1 ->]; [|exact Hm|].
  2:{ rewrite general_doctor_fields. destruct symptoms; [contradiction|reflexivity]. }
  rewrite <- Ho1. clear Ho1.
  destruct (passed o1) as [r1|].
  2:{ eexists _, _, []. split; [exact H|]. cbn [after_event trace].
      rewrite <- app_assoc. split; reflexivity. }
  destruct H as (o2 & w2 & S2 & H).
  apply stage_run_trace in S2 as (e2 & T2 & _).
  cbn [after_event trace] in T2. rewrite <- !app_assoc in T2. cbn [app] in T2.
  destruct (passed o2) as [r2|].
  2:{ eexists _, _, _. split; [exact H|]. split; [exact T2|reflexivity]. }
  destruct H as (o3 & w3 & S3 & H).
  apply stage_run_trace in S3 as (e3 & T3 & _).
  rewrite T2 in T3. rewrite <- !app_assoc in T3. cbn [app] in T3.
  destruct (passed o3) as [r3|].
  2:{ eexists _, _, _. split; [exact H|]. split; [exact T3|reflexivity]. }
  destruct H as (o4 & w4 & S4 & H).
  apply stage_run_trace in S4 as (e4 & T4 & _).
  rewrite T3 in T4. rewrite <- !app_assoc in T4. cbn [app] in T4.
  eexists _, _, _. split; [exact H|]. split; [exact T4|reflexivity].
Qed.

(** X10.  A text of the model that happens to contain [Error] or [Blocked] stops
    the workflow like a failure: the dict holds that text under
    [general_doctor] and nothing else, and no further agent is made. *)
Theorem run_workflow_false_alarm (symptoms : str) (w : World) (text : str) :
  symptoms <> [] ->
  model_init (trace w ++ [EvInit GeneralDoctor (general_doctor_input symptoms)])
  = true ->
  model_invoke (trace w ++ [EvInit GeneralDoctor (general_doctor_input symptoms)])
    (prompt_for GeneralDoctor (general_doctor_input symptoms))
  = Ok (Content text) ->
  strip text <> [] ->
  contains (py "Error") text = true \/ contains (py "Blocked") text = true ->
  run_workflow symptoms w =
  (Ok [(py "general_doctor", Some text)],
   after_event
     (after_event w (EvInit GeneralDoctor (general_doctor_input symptoms)))
     (EvInvoke GeneralDoctor
        (prompt_for GeneralDoctor (general_doctor_input symptoms)))).
Proof.
  intros Hs Hm Hi Ht Hc.
  destruct (run_workflow_cases symptoms w) as (o1 & w1 & S1 & H).
  apply stage_ready in S1 as [Ho1 ->]; [|exact Hm|].
  2:{ rewrite general_doctor_fields. destruct symptoms; [contradiction|reflexivity]. }
  rewrite Hi in Ho1. cbn [outcome_value] in Ho1.
  destruct (truthy (strip text)) eqn:E;
    [|apply truthy_false in E; contradiction].
  subst o1.
  assert (passed (Some text) = None) as P.
  { unfold passed. cbn [stage_failed].
    destruct Hc as [-> | ->]; rewrite ?orb_true_r; reflexivity. }
  rewrite P in H. exact H.
Qed.

Lemma count_events_app (f : Event -> bool) (l1 l2 : list Event) :
  count_events f (l1 ++ l2) = (count_events f l1 + count_events f l2)%nat.
Proof. unfold count_events. rewrite List.filter_app, length_app. reflexivity. Qed.

Lemma stage_run_counts (r : Role) (d : gmap str str) (w : World)
    (out : option str) (w2 : World) :
  stage_run r d w out w2 ->
  exists evs, trace w2 = trace w ++ evs
              /\ count_events is_init evs = 1%nat
              /\ (count_events is_invoke evs <= 1)%nat
              /\ stdin w2 = stdin w /\ stdout w2 = stdout w.
Proof.
  intros H. destruct (stage_run_cases r d w out w2 H) as [[_ ->]|(_ & _ & ->)].
  - exists [EvInit r d]. cbn. repeat split; lia.
  - exists [EvInit r d; EvInvoke r (prompt_for r d)].
    cbn [after_event trace stdin stdout]. rewrite <- app_assoc.
    cbn. repeat split; lia.
Qed.

(** X11.  [run_workflow] constructs one agent for each key of the dict it
    returns, at most four, invokes a model at most once for each, and
    reads and writes nothing. *)
Theorem run_workflow_bounds (symptoms : str) (w : World) :
  exists results w' evs,
    run_workflow symptoms w = (Ok results, w')
    /\ trace w' = trace w ++ evs
    /\ count_events is_init evs = List.length results
    /\ (count_events is_invoke evs <= List.length results)%nat
    /\ (1 <= List.length results <= 4)%nat
    /\ stdin w' = stdin w /\ stdout w' = stdout w.
Proof.
  destruct (run_workflow_cases symptoms w) as (o1 & w1 & S1 & H).
  apply stage_run_counts in S1 as (e1 & T1 & I1 & V1 & In1 & Out1).
  destruct (passed o1) as [r1|].
  2:{ eexists _, _, e1. split; [exact H|]. cbn [List.length].
      repeat split; try assumption; lia. }
  destruct H as (o2 & w2 & S2 & H).
  apply stage_run_counts in S2 as (e2 & T2 & I2 & V2 & In2 & Out2).
  destruct (passed o2) as [r2|].
  2:{ eexists _, _, (e1 ++ e2). split; [exact H|]. cbn [List.length].
      rewrite !count_events_app, app_assoc, <- T1.
      repeat split; try congruence; lia. }
  destruct H as (o3 & w3 & S3 & H).
  apply stage_run_counts in S3 as (e3 & T3 & I3 & V3 & In3 & Out3).
  destruct (passed o3) as [r3|].
  2:{ eexists _, _, (e1 ++ e2 ++ e3). split; [exact H|]. cbn [List.length].
      rewrite !count_events_app, !app_assoc, <- T1, <- T2.
      repeat split; try congruence; lia. }
  destruct H as (o4 & w4 & S4 & H).
  apply stage_run_counts in S4 as (e4 & T4 & I4 & V4 & In4 & Out4).
  eexists _, _, (e1 ++ e2 ++ e3 ++ e4). split; [exact H|]. cbn [List.length].
  rewrite !count_events_app, !app_assoc, <- T1, <- T2, <- T3.
  repeat split; try congruence; lia.
Qed.

Lemma follow_up_input_lookup (s p d m : str) :
  follow_up_input s p d m !! py "symptoms" = Some s
  /\ follow_up_input s p d m !! py "preliminary_assessment" = Some p
  /\ follow_up_input s p d m !! py "diagnosis" = Some d
  /\ follow_up_input s p d m !! py "medications" = Some m.
Proof. repeat split; vm_compute; reflexivity. Qed.

Lemma passed_truthy (out : option str) (r : str) :
  passed out = Some r -> truthy r = true.
Proof.
  intros H. apply passed_Some in H as [_ H]. cbn [stage_failed] in H.
  destruct (truthy r); [reflexivity|discriminate].
Qed.

Lemma stage_run_invokes (r : Role) (d : gmap str str) (w : World)
    (out : option str) (w2 : World) :
  (forall h, model_init h = true) ->
  forallb (get_truthy d) (required_fields r) = true ->
  stage_run r d w out w2 ->
  exists evs, trace w2 = trace w ++ evs
              /\ count_events is_invoke evs = 1%nat.
Proof.
  intros Hm Hf S. apply stage_ready in S as [_ ->]; [|apply Hm|exact Hf].
  exists [EvInit r d; EvInvoke r (prompt_for r d)].
  cbn [after_event trace]. rewrite <- app_assoc. split; reflexivity.
Qed.

(** X12.  Past the first stage no input is ever missing: when the chat model can
    always be constructed and the symptoms are not empty, every stage that
    [run_workflow] reaches invokes the model, once for each key of the dict
    it returns. *)
Theorem run_workflow_every_stage_invokes (symptoms : str) (w : World)
    (results : results_dict) (w' : World) :
  (forall h, model_init h = true) ->
  symptoms <> [] ->
  run_workflow symptoms w = (Ok results, w') ->
  exists evs,
    trace w' = trace w ++ evs
    /\ count_events is_invoke evs = List.length results.
Proof.
  intros Hm Hs Hrun.
  destruct (run_workflow_cases symptoms w) as (o1 & w1 & S1 & H).
  apply stage_run_invokes in S1 as (e1 & T1 & V1); [|exact Hm|].
  2:{ rewrite general_doctor_fields. destruct symptoms; [contradiction|reflexivity]. }
  destruct (passed o1) as [r1|] eqn:P1.
  2:{ rewrite H in Hrun. injection Hrun as <- <-. exists e1. auto. }
  apply passed_truthy in P1.
  destruct H as (o2 & w2 & S2 & H).
  apply stage_run_invokes in S2 as (e2 & T2 & V2); [|exact Hm|].
  2:{ cbn [required_fields forallb]. unfold get_truthy, diagnosis_input.
      rewrite lookup_singleton_eq, P1. reflexivity. }
  destruct (passed o2) as [r2|] eqn:P2.
  2:{ rewrite H in Hrun. injection Hrun as <- <-. exists (e1 ++ e2).
      rewrite count_events_app, app_assoc, <- T1, V1, V2. auto. }
  apply passed_truthy in P2.
  destruct H as (o3 & w3 & S3 & H).
  apply stage_run_invokes in S3 as (e3 & T3 & V3); [|exact Hm|].
  2:{ cbn [required_fields forallb]. unfold get_truthy, medication_input.
      rewrite lookup_singleton_eq, P2. reflexivity. }
  destruct (passed o3) as [r3|] eqn:P3.
  2:{ rewrite H in Hrun. injection Hrun as <- <-. exists (e1 ++ e2 ++ e3).
      rewrite !count_events_app, !app_assoc, <- T1, <- T2, V1, V2, V3. auto. }
  apply passed_truthy in P3.
  destruct H as (o4 & w4 & S4 & H).
  apply stage_run_invokes in S4 as (e4 & T4 & V4); [|exact Hm|].
  2:{ destruct (follow_up_input_lookup symptoms r1 r2 r3) as (K1 & K2 & K3 & K4).
      cbn [required_fields required_keys forallb]. unfold get_truthy.
      rewrite K1, K2, K3, K4, P1, P2, P3.
      destruct symptoms; [contradiction|reflexivity]. }
  rewrite H in Hrun. injection Hrun as <- <-. exists (e1 ++ e2 ++ e3 ++ e4).
  rewrite !count_events_app, !app_assoc, <- T1, <- T2, <- T3, V1, V2, V3, V4. auto.
Qed.

(** ** More about the menu *)

Lemma lstrip_head (s : str) (c : N) (t : str) :
  lstrip s = c :: t -> isspace c = false.
Proof.
  induction s as [|x s IH]; cbn [lstrip]; [discriminate|].
  destruct (isspace x) eqn:E; [exact IH|]. intros [= <- _]. exact E.
Qed.

Lemma rstrip_split (s : str) :
  exists ws, s = rstrip s ++ ws /\ forallb isspace ws = true.
Proof.
  unfold rstrip. destruct (lstrip_suffix (rev s)) as (ws & E & Hws).
  exists (rev ws). split.
  - rewrite <- rev_app_distr, <- E, rev_involutive. reflexivity.
  - rewrite forallb_forall in *. intros x Hx. apply Hws, in_rev. exact Hx.
Qed.

Lemma rstrip_last (s v : str) (c : N) :
  rstrip s = v ++ [c] -> isspace c = false.
Proof.
  unfold rstrip. intros H. apply (f_equal (@rev N)) in H.
  rewrite rev_involutive, rev_app_distr in H. cbn [rev app] in H.
  exact (lstrip_head _ _ _ H).
Qed.

(** X13.  [get_user_input] writes the prompt, takes one line and returns it
    without the white space at its two ends: what it returns is the line
    between a leading and a trailing run of white space, and neither starts
    nor ends with a white-space character. *)
Theorem get_user_input_clean (prompt line : str) (rest : list str) (w : World) :
  stdin w = line :: rest ->
  exists value lead tail,
    get_user_input prompt w =
    (Ok value, mkWorld rest (stdout w ++ [prompt]) (trace w))
    /\ line = lead ++ value ++ tail
    /\ forallb isspace lead = true
    /\ forallb isspace tail = true
    /\ (forall c v, value = c :: v -> isspace c = false)
    /\ (forall c v, value = v ++ [c] -> isspace c = false).
Proof.
  intros Hin.
  destruct (lstrip_suffix line) as (lead & El & Hl).
  destruct (rstrip_split (lstrip line)) as (tail & Et & Htl).
  exists (strip line), lead, tail. split.
  - unfold get_user_input, input, bind, write, ret. cbn [stdin stdout trace].
    rewrite Hin. reflexivity.
  - split; [|split; [exact Hl|split; [exact Htl|split]]].
    + unfold strip. rewrite <- Et. exact El.
    + intros c v Hv. unfold strip in Hv. rewrite Hv in Et.
      exact (lstrip_head _ _ _ Et).
    + intros c v Hv. exact (rstrip_last _ _ _ Hv).
Qed.

(** X14.  When standard input ends before the choice, or before all the lines
    of the chosen option are there, [main] stops with [EOFError]; it has
    read what there was and has constructed no agent. *)
Theorem main_eof (w : World) :
  stdin w = []
  \/ (exists line rest,
        stdin w = line :: rest
        /\ (List.length rest < lines_needed (strip line))%nat) ->
  exists w', main w = (Raise EOFError, w') /\ trace w' = trace w /\ stdin w' = [].
Proof.
  intros [Hin|(line & rest & Hin & Hlen)]; unfold main; menu_step; rewrite Hin;
    menu_step.
  - eexists. split; [reflexivity|]. cbn [stdin trace]. auto.
  - unfold lines_needed, menu_option in Hlen.
    repeat match goal with
    | |- context [str_eqb (strip line) ?k] => destruct (str_eqb (strip line) k)
    end;
    cbn [option_fields required_fields required_keys List.length] in Hlen;
    try lia;
    destruct rest as [|l1 [|l2 [|l3 [|l4 rest]]]];
    cbn [List.length] in Hlen; try lia;
    menu_step; eexists; (split; [reflexivity|]); cbn [stdin trace]; auto.
Qed.

(** The agent of a one-agent option, its run returning [None]. *)
Ltac menu_agent_none Hrun :=
  match goal with |- context [bind (Agent_init ?r (Some ?d)) _ ?w1] =>
    rewrite (bind_eq _ _ _ _ _ (Agent_init_eq r d w1));
    match goal with |- context [bind (run ?a) _ ?w2] =>
      assert (run a w2 = (Ok None, w2)) as Hrun
    end
  end.

Ltac menu_finish_none Hrun :=
  rewrite (bind_eq _ _ _ _ _ Hrun); menu_step;
  eexists; split; [reflexivity|]; cbn [stdin stdout trace after_event];
  split; [reflexivity|]; eexists; reflexivity.

(** X15.  In the options that run one agent, a field entered blank (empty or
    white space only) keeps the model from being invoked: [main]
    constructs the agent, invokes nothing and prints
    [No output available]. *)
Theorem main_blank_field (w : World) (line : str) (rest : list str)
    (r : Role) (i : nat) (l : str) :
  stdin w = line :: rest ->
  menu_option (strip line) = Some (Single r) ->
  (List.length (required_fields r) <= List.length rest)%nat ->
  (i < List.length (required_fields r))%nat ->
  rest !! i = Some l ->
  forallb isspace l = true ->
  exists w',
    main w = (Ok tt, w')
    /\ trace w' =
       trace w ++
       [EvInit r (input_of_lines r (take (List.length (required_fields r)) rest))]
    /\ exists before, stdout w' = before ++ [printed NO_OUTPUT].
Proof.
  intros Hin Hopt Hlen Hi Hl Hblank. apply strip_nil_iff in Hblank.
  unfold main. menu_step. rewrite Hin. menu_step.
  unfold menu_option in Hopt.
  destruct (str_eqb (strip line) (py "1")); [discriminate|].
  destruct (str_eqb (strip line) (py "2")).
  { injection Hopt as <-. cbn [required_fields List.length] in Hlen, Hi.
    destruct rest as [|l1 rest]; [cbn in Hlen; lia|].
    destruct i; [|lia]. injection Hl as ->.
    menu_step. unfold GeneralDoctorAgent. menu_agent_none Hrun.
    { apply (run_skips _ _ (py "symptoms")); [left; reflexivity|].
      unfold get_truthy. cbn [input_data].
      rewrite lookup_singleton_eq, Hblank. reflexivity. }
    menu_finish_none Hrun. }
  destruct (str_eqb (strip line) (py "3")).
  { injection Hopt as <-. cbn [required_fields List.length] in Hlen, Hi.
    destruct rest as [|l1 rest]; [cbn in Hlen; lia|].
    destruct i; [|lia]. injection Hl as ->.
    menu_step. unfold DiagnosisAgent. menu_agent_none Hrun.
    { apply (run_skips _ _ (py "preliminary_assessment")); [left; reflexivity|].
      unfold get_truthy. cbn [input_data].
      rewrite lookup_singleton_eq, Hblank. reflexivity. }
    menu_finish_none Hrun. }
  destruct (str_eqb (strip line) (py "4")).
  { injection Hopt as <-. cbn [required_fields List.length] in Hlen, Hi.
    destruct rest as [|l1 rest]; [cbn in Hlen; lia|].
    destruct i; [|lia]. injection Hl as ->.
    menu_step. unfold MedicationAgent. menu_agent_none Hrun.
    { apply (run_skips _ _ (py "diagnosis")); [left; reflexivity|].
      unfold get_truthy. cbn [input_data].
      rewrite lookup_singleton_eq, Hblank. reflexivity. }
    menu_finish_none Hrun. }
  destruct (str_eqb (strip line) (py "5")); [|discriminate].
  injection Hopt as <-.
  cbn [required_fields required_keys List.length] in Hlen, Hi.
  destruct rest as [|l1 [|l2 [|l3 [|l4 rest]]]]; try (cbn in Hlen; lia).
  menu_step. unfold FollowUpAgent.
  fold (follow_up_input (strip l1) (strip l2) (strip l3) (strip l4)).
  destruct (follow_up_input_lookup (strip l1) (strip l2) (strip l3) (strip l4))
    as (K1 & K2 & K3 & K4).
  menu_agent_none Hrun.
  { destruct i as [|[|[|[|]]]]; try lia; injection Hl as ->;
      rewrite Hblank in *.
    - apply (run_skips _ _ (py "symptoms")); [left; reflexivity|].
      unfold get_truthy. cbn [input_data]. rewrite K1. reflexivity.
    - apply (run_skips _ _ (py "preliminary_assessment"));
        [right; left; reflexivity|].
      unfold get_truthy. cbn [input_data]. rewrite K2. reflexivity.
    - apply (run_skips _ _ (py "diagnosis")); [right; right; left; reflexivity|].
      unfold get_truthy. cbn [input_data]. rewrite K3. reflexivity.
    - apply (run_skips _ _ (py "medications"));
        [right; right; right; left; reflexivity|].
      unfold get_truthy. cbn [input_data]. rewrite K4. reflexivity. }
  menu_finish_none Hrun.
Qed.

(** X16.  The full workflow on blank symptoms: the symptoms are stripped to the
    empty string, no model is invoked, and [main] shows [None] for the
    general doctor and [No output available] for the three stages that
    did not run. *)
Theorem main_full_blank_symptoms (w : World) (line l1 : str) (rest : list str) :
  stdin w = line :: l1 :: rest ->
  strip line = py "1" ->
  forallb isspace l1 = true ->
  main w =
  (Ok tt,
   mkWorld rest
     (stdout w ++ menu_text ++
      [printed (newline :: py "=== Running Full Workflow ===");
       py "Enter patient symptoms: ";
       printed (result_header GeneralDoctor); printed (py "None");
       printed (result_header Diagnosis); printed NO_OUTPUT;
       printed (result_header Medication); printed NO_OUTPUT;
       printed (result_header FollowUp); printed NO_OUTPUT])
     (trace w ++ [EvInit GeneralDoctor (general_doctor_input [])])).
Proof.
  intros Hin Hc Hblank. apply strip_nil_iff in Hblank.
  unfold main. menu_step. rewrite Hin. menu_step.
  rewrite Hc, str_eqb_refl. menu_step. rewrite Hblank.
  match goal with |- context [bind (run_workflow [] ) _ ?w1] =>
    destruct (run_workflow_cases [] w1) as (o1 & w2 & S1 & H)
  end.
  apply stage_none in S1 as [-> ->];
    [|right; rewrite general_doctor_fields; reflexivity].
  change (passed None) with (@None str) in H. cbv beta iota in H.
  rewrite (bind_eq _ _ _ _ _ H). menu_step.
  unfold print, write. cbn [after_event stdin stdout trace].
  rewrite <- !app_assoc. reflexivity.
Qed.

(** ** The API key *)

(** X17.  A key of eight characters or fewer is in the log in full: the two
    parts of it that the logged line shows cover the whole key. *)
Theorem api_key_log_short (env : option str) (key line : str) :
  load_api_key env = Ok (key, line) ->
  (List.length key <= 8)%nat ->
  line = py "API Key loaded: " ++ slice_to 4 key ++ py "..." ++ slice_last 4 key
  /\ key = slice_to 4 key ++ drop (8 - List.length key) (slice_last 4 key).
Proof.
  unfold load_api_key. destruct env as [k|]; [|discriminate].
  destruct (truthy k); cbn [negb]; [|discriminate].
  intros [= -> <-] Hlen. split; [reflexivity|].
  unfold slice_to, slice_last. rewrite drop_drop.
  destruct (le_lt_dec 4 (List.length key)) as [H4|H4].
  - replace (List.length key - 4 + (8 - List.length key))%nat with 4%nat by lia.
    symmetry. apply take_drop.
  - rewrite take_ge, drop_ge by lia. rewrite app_nil_r. reflexivity.
Qed.

(** X18.  Of a key of eight characters or more the log shows the first four
    and the last four characters and nothing of what lies between. *)
Theorem api_key_log_long (env : option str) (key line : str) :
  load_api_key env = Ok (key, line) ->
  (8 <= List.length key)%nat ->
  exists first hidden last,
    key = first ++ hidden ++ last
    /\ List.length first = 4%nat /\ List.length last = 4%nat
    /\ line = py "API Key loaded: " ++ first ++ py "..." ++ last.
Proof.
  unfold load_api_key. destruct env as [k|]; [|discriminate].
  destruct (truthy k); cbn [negb]; [|discriminate].
  intros [= -> <-] Hlen.
  exists (take 4 key), (take (List.length key - 8) (drop 4 key)),
         (drop (List.length key - 4) key).
  split; [|split; [|split]].
  - rewrite <- (take_drop 4 key) at 1. f_equal.
    rewrite <- (take_drop (List.length key - 8) (drop 4 key)) at 1. f_equal.
    rewrite drop_drop. f_equal. lia.
  - rewrite length_take. lia.
  - rewrite length_drop. lia.
  - reflexivity.
Qed.

End Provider.

(** ** The claims at concrete inputs *)

Lemma run_missing_field_witness :
  In (py "preliminary_assessment") (required_fields (role (agent_on Diagnosis ∅)))
  /\ input_data (agent_on Diagnosis ∅) !! py "preliminary_assessment" = None
  /\ run (model_says (py "flu")) (agent_on Diagnosis ∅) empty_world
     = (Ok None, empty_world).
Proof.
  assert (In (py "preliminary_assessment")
            (required_fields (role (agent_on Diagnosis ∅)))) as Hin
    by (left; reflexivity).
  assert (input_data (agent_on Diagnosis ∅) !! py "preliminary_assessment" = None)
    as Hk by reflexivity.
  split; [exact Hin|]. split; [exact Hk|].
  exact (proj1 (run_missing_field (model_says (py "flu")) _ empty_world _ Hin Hk)).
Defined.

Lemma run_empty_field_witness :
  In (py "symptoms")
     (required_fields (role (agent_on GeneralDoctor {[ py "symptoms" := [] ]})))
  /\ input_data (agent_on GeneralDoctor {[ py "symptoms" := [] ]}) !! py "symptoms"
     = Some []
  /\ run (model_says (py "flu"))
       (agent_on GeneralDoctor {[ py "symptoms" := [] ]}) empty_world
     = (Ok None, empty_world).
Proof.
  assert (In (py "symptoms")
            (required_fields (role (agent_on GeneralDoctor {[ py "symptoms" := [] ]}))))
    as Hin by (left; reflexivity).
  assert (input_data (agent_on GeneralDoctor {[ py "symptoms" := [] ]}) !! py "symptoms"
          = Some []) as Hk by reflexivity.
  split; [exact Hin|]. split; [exact Hk|].
  exact (proj1 (run_empty_field (model_says (py "flu")) _ empty_world _ Hin Hk)).
Defined.

Lemma run_provider_error_witness :
  trace (snd (run (model_raises ResourceExhausted)
                (agent_on GeneralDoctor cough_input) empty_world))
  = trace empty_world
    ++ [EvInvoke GeneralDoctor (prompt_for GeneralDoctor cough_input)]
  /\ fst (run (model_raises ResourceExhausted)
            (agent_on GeneralDoctor cough_input) empty_world)
     = Ok (Some (py "Error: Rate limit exceeded, please try again later")).
Proof.
  assert (trace (snd (run (model_raises ResourceExhausted)
                        (agent_on GeneralDoctor cough_input) empty_world))
          = trace empty_world
            ++ [EvInvoke (role (agent_on GeneralDoctor cough_input))
                  (prompt_for GeneralDoctor cough_input)]) as Ht
    by (vm_compute; reflexivity).
  split; [exact Ht|].
  destruct (run_provider_error (model_raises ResourceExhausted) _ _ _
              ResourceExhausted Ht eq_refl (or_introl eq_refl))
    as (s & Hs & -> & _).
  exact Hs.
Defined.

Lemma run_blocked_witness :
  trace (snd (run (model_says (py "  ")) (agent_on GeneralDoctor cough_input)
                empty_world))
  = trace empty_world
    ++ [EvInvoke GeneralDoctor (prompt_for GeneralDoctor cough_input)]
  /\ forallb isspace (py "  ") = true
  /\ fst (run (model_says (py "  ")) (agent_on GeneralDoctor cough_input)
            empty_world)
     = Ok (Some (py "Blocked: Response filtered due to content restrictions")).
Proof.
  assert (trace (snd (run (model_says (py "  "))
                        (agent_on GeneralDoctor cough_input) empty_world))
          = trace empty_world
            ++ [EvInvoke (role (agent_on GeneralDoctor cough_input))
                  (prompt_for GeneralDoctor cough_input)]) as Ht
    by (vm_compute; reflexivity).
  assert (forallb isspace (py "  ") = true) as Hs by reflexivity.
  split; [exact Ht|]. split; [exact Hs|].
  exact (proj1 (run_blocked (model_says (py "  ")) _ _ _ (py "  ") Ht eq_refl Hs)).
Defined.

Lemma run_other_failure_witness :
  trace (snd (run (model_raises OtherException)
                (agent_on GeneralDoctor cough_input) empty_world))
  = trace empty_world
    ++ [EvInvoke GeneralDoctor (prompt_for GeneralDoctor cough_input)]
  /\ fst (run (model_raises OtherException)
            (agent_on GeneralDoctor cough_input) empty_world)
     = Ok None.
Proof.
  assert (trace (snd (run (model_raises OtherException)
                        (agent_on GeneralDoctor cough_input) empty_world))
          = trace empty_world
            ++ [EvInvoke (role (agent_on GeneralDoctor cough_input))
                  (prompt_for GeneralDoctor cough_input)]) as Ht
    by (vm_compute; reflexivity).
  split; [exact Ht|].
  apply (run_other_failure (model_raises OtherException) _ _ _ OtherException Ht eq_refl);
    discriminate.
Defined.

Lemma prompt_verbatim_witness :
  prompt_template (agent_on GeneralDoctor cough_input)
  = create_prompt_template GeneralDoctor
  /\ input_data (agent_on GeneralDoctor cough_input) !! py "symptoms"
     = Some (py "cough")
  /\ exists pieces,
       template_text pieces = create_prompt_template GeneralDoctor
       /\ forallb piece_ok pieces = true
       /\ field_names pieces = [py "symptoms"]
       /\ trace (snd (run (model_says (py "flu"))
                        (agent_on GeneralDoctor cough_input) empty_world))
          = [EvInvoke GeneralDoctor (fill cough_input pieces)].
Proof.
  split; [reflexivity|]. split; [reflexivity|].
  apply (prompt_verbatim (model_says (py "flu"))
           (agent_on GeneralDoctor cough_input) empty_world).
  - reflexivity.
  - exists ChatGoogleGenerativeAI. reflexivity.
  - intros k [<-|[]]. exists (py "cough"). split; [reflexivity|discriminate].
Defined.

Lemma run_workflow_halts_witness :
  workflow_reached model_ready (model_forbidden_after 3) (py "cough") empty_world
    Diagnosis
    [(py "general_doctor", Some (py "flu"));
     (py "diagnosis", Some PERMISSION_SENTINEL)]
    (Some PERMISSION_SENTINEL)
    (mkWorld [] []
       [EvInit GeneralDoctor (general_doctor_input (py "cough"));
        EvInvoke GeneralDoctor
          (prompt_for GeneralDoctor (general_doctor_input (py "cough")));
        EvInit Diagnosis (diagnosis_input (py "flu"));
        EvInvoke Diagnosis (prompt_for Diagnosis (diagnosis_input (py "flu")))])
  /\ stage_failed (Some PERMISSION_SENTINEL) = true
  /\ run_workflow model_ready (model_forbidden_after 3) (py "cough") empty_world
     = (Ok [(py "general_doctor", Some (py "flu"));
            (py "diagnosis", Some PERMISSION_SENTINEL)],
        mkWorld [] []
          [EvInit GeneralDoctor (general_doctor_input (py "cough"));
           EvInvoke GeneralDoctor
             (prompt_for GeneralDoctor (general_doctor_input (py "cough")));
           EvInit Diagnosis (diagnosis_input (py "flu"));
           EvInvoke Diagnosis (prompt_for Diagnosis (diagnosis_input (py "flu")))]).
Proof.
  assert (workflow_reached model_ready (model_forbidden_after 3) (py "cough")
            empty_world Diagnosis
            [(py "general_doctor", Some (py "flu"));
             (py "diagnosis", Some PERMISSION_SENTINEL)]
            (Some PERMISSION_SENTINEL)
            (mkWorld [] []
               [EvInit GeneralDoctor (general_doctor_input (py "cough"));
                EvInvoke GeneralDoctor
                  (prompt_for GeneralDoctor (general_doctor_input (py "cough")));
                EvInit Diagnosis (diagnosis_input (py "flu"));
                EvInvoke Diagnosis
                  (prompt_for Diagnosis (diagnosis_input (py "flu")))])) as Hreach.
  { exists (py "flu"),
      (mkWorld [] []
         [EvInit GeneralDoctor (general_doctor_input (py "cough"));
          EvInvoke GeneralDoctor
            (prompt_for GeneralDoctor (general_doctor_input (py "cough")))]).
    split; [|split; [reflexivity|split; [|reflexivity]]].
    - eexists _, _. split; [reflexivity|]. vm_compute. reflexivity.
    - eexists _, _. split; [reflexivity|]. vm_compute. reflexivity. }
  assert (stage_failed (Some PERMISSION_SENTINEL) = true) as Hf by reflexivity.
  split; [exact Hreach|]. split; [exact Hf|].
  refine (proj1 (run_workflow_halts model_ready (model_forbidden_after 3) (py "cough")
                   empty_world Diagnosis _ _ _ Hreach _ Hf)).
  discriminate.
Defined.


Lemma main_menu_witness :
  stdin (mkWorld [py " 2 "; py "cough"] [] []) = [py " 2 "; py "cough"]
  /\ (lines_needed (strip (py " 2 ")) <= List.length [py "cough"])%nat
  /\ exists w',
       main model_ready (model_says (py "flu")) (mkWorld [py " 2 "; py "cough"] [] [])
       = (Ok tt, w')
       /\ stdin w' = [].
Proof.
  assert ((lines_needed (strip (py " 2 ")) <= List.length [py "cough"])%nat) as Hlen
    by (vm_compute; lia).
  split; [reflexivity|]. split; [exact Hlen|].
  destruct (main_menu model_ready (model_says (py "flu"))
              (mkWorld [py " 2 "; py "cough"] [] []) (py " 2 ") [py "cough"]
              eq_refl Hlen) as (w' & Hmain & Hin & _).
  exists w'. split; [exact Hmain|exact Hin].
Defined.

(** The value of [follow_up] is returned as it is, a failure marker
    included: here the fourth invocation meets the permission error. *)
Example follow_up_unchecked :
  fst (run_workflow model_ready model_then_forbidden (py "cough") empty_world)
  = Ok [(py "general_doctor", Some (py "flu")); (py "diagnosis", Some (py "flu"));
        (py "medication", Some (py "flu"));
        (py "follow_up", Some PERMISSION_SENTINEL)].
Proof. vm_compute. reflexivity. Qed.

(** The menu strips the choice, and shows Python's [None] as it is when
    the first stage of the full workflow returns it. *)
Example main_full_workflow_none :
  stdout (snd (main model_ready (model_raises OtherException)
                 (mkWorld [py "1"; py "cough"] [] [])))
  = menu_text
    ++ [printed (newline :: py "=== Running Full Workflow ===");
        py "Enter patient symptoms: ";
        printed (result_header GeneralDoctor); printed (py "None");
        printed (result_header Diagnosis); printed NO_OUTPUT;
        printed (result_header Medication); printed NO_OUTPUT;
        printed (result_header FollowUp); printed NO_OUTPUT].
Proof. vm_compute. reflexivity. Qed.

(** ** The further properties at concrete inputs *)

Lemma run_never_blank_witness :
  fst (run (model_says (py "flu")) (agent_on GeneralDoctor cough_input) empty_world)
  = Ok (Some (py "flu"))
  /\ strip (py "flu") <> [].
Proof.
  assert (fst (run (model_says (py "flu")) (agent_on GeneralDoctor cough_input)
                 empty_world) = Ok (Some (py "flu"))) as H
    by (vm_compute; reflexivity).
  split; [exact H|].
  exact (run_never_blank (model_says (py "flu")) _ _ _ H).
Defined.

Lemma run_success_verbatim_witness :
  trace (snd (run (model_says (py " flu ")) (agent_on GeneralDoctor cough_input)
                empty_world))
  = trace empty_world
    ++ [EvInvoke GeneralDoctor (prompt_for GeneralDoctor cough_input)]
  /\ strip (py " flu ") <> []
  /\ fst (run (model_says (py " flu ")) (agent_on GeneralDoctor cough_input)
            empty_world)
     = Ok (Some (py " flu ")).
Proof.
  assert (trace (snd (run (model_says (py " flu "))
                        (agent_on GeneralDoctor cough_input) empty_world))
          = trace empty_world
            ++ [EvInvoke (role (agent_on GeneralDoctor cough_input))
                  (prompt_for GeneralDoctor cough_input)]) as Ht
    by (vm_compute; reflexivity).
  assert (strip (py " flu ") <> []) as Hs by (vm_compute; discriminate).
  split; [exact Ht|]. split; [exact Hs|].
  exact (run_success_verbatim (model_says (py " flu ")) _ _ _ (py " flu ")
           Ht eq_refl Hs).
Defined.

Lemma run_ignores_other_keys_witness :
  required_fields (role (agent_on GeneralDoctor cough_input)) = [py "symptoms"]
  /\ (<[ py "age" := py "40" ]> cough_input : gmap str str) !! py "symptoms"
     = input_data (agent_on GeneralDoctor cough_input) !! py "symptoms"
  /\ run (model_says (py "flu"))
       (with_input_data (agent_on GeneralDoctor cough_input)
          (<[ py "age" := py "40" ]> cough_input)) empty_world
     = run (model_says (py "flu")) (agent_on GeneralDoctor cough_input) empty_world.
Proof.
  assert ((<[ py "age" := py "40" ]> cough_input : gmap str str) !! py "symptoms"
          = input_data (agent_on GeneralDoctor cough_input) !! py "symptoms") as Hd
    by (vm_compute; reflexivity).
  split; [reflexivity|]. split; [exact Hd|].
  exact (run_ignores_other_keys (model_says (py "flu"))
           (agent_on GeneralDoctor cough_input) _ empty_world (py "symptoms")
           eq_refl Hd).
Defined.

Lemma run_none_iff_witness :
  prompt_template (agent_on Diagnosis ∅) = create_prompt_template Diagnosis
  /\ fst (run (model_says (py "flu")) (agent_on Diagnosis ∅) empty_world) = Ok None.
Proof.
  split; [reflexivity|].
  apply (run_none_iff (model_says (py "flu")) (agent_on Diagnosis ∅) empty_world
           eq_refl).
  right. left. exists (py "preliminary_assessment").
  split; [left; reflexivity|reflexivity].
Defined.

Lemma agent_without_input_witness :
  Agent_init model_ready FollowUp None empty_world
  = (Ok (agent_on FollowUp ∅), mkWorld [] [] [EvInit FollowUp ∅])
  /\ input_data (agent_on FollowUp ∅) = ∅
  /\ run (model_says (py "flu")) (agent_on FollowUp ∅)
       (mkWorld [] [] [EvInit FollowUp ∅])
     = (Ok None, mkWorld [] [] [EvInit FollowUp ∅]).
Proof.
  assert (Agent_init model_ready FollowUp None empty_world
          = (Ok (agent_on FollowUp ∅), mkWorld [] [] [EvInit FollowUp ∅])) as Ha
    by reflexivity.
  split; [exact Ha|].
  exact (agent_without_input model_ready (model_says (py "flu")) FollowUp None
           empty_world _ _ (or_introl eq_refl) Ha).
Defined.

Lemma run_workflow_not_started_witness :
  run_workflow model_ready (model_says (py "flu")) [] empty_world
  = (Ok [(py "general_doctor", None)],
     after_event empty_world (EvInit GeneralDoctor (general_doctor_input []))).
Proof.
  exact (run_workflow_not_started model_ready (model_says (py "flu")) []
           empty_world (or_introl eq_refl)).
Defined.

Lemma run_workflow_started_witness :
  py " " <> []
  /\ exists results w' evs,
       run_workflow model_ready (model_says (py "flu")) (py " ") empty_world
       = (Ok results, w')
       /\ trace w' =
          trace empty_world
          ++ EvInit GeneralDoctor (general_doctor_input (py " "))
             :: EvInvoke GeneralDoctor
                  (prompt_for GeneralDoctor (general_doctor_input (py " ")))
             :: evs.
Proof.
  assert (py " " <> []) as Hs by (vm_compute; discriminate).
  split; [exact Hs|].
  destruct (run_workflow_started model_ready (model_says (py "flu")) (py " ")
              empty_world Hs eq_refl) as (results & w' & evs & Hrun & Ht & _).
  exists results, w', evs. split; [exact Hrun|exact Ht].
Defined.

Lemma run_workflow_false_alarm_witness :
  contains (py "Error") (py "Refractive Error - blurred vision") = true
  /\ run_workflow model_ready (model_says (py "Refractive Error - blurred vision"))
       (py "cough") empty_world
     = (Ok [(py "general_doctor", Some (py "Refractive Error - blurred vision"))],
        after_event
          (after_event empty_world
             (EvInit GeneralDoctor (general_doctor_input (py "cough"))))
          (EvInvoke GeneralDoctor
             (prompt_for GeneralDoctor (general_doctor_input (py "cough"))))).
Proof.
  assert (contains (py "Error") (py "Refractive Error - blurred vision") = true)
    as Hc by reflexivity.
  split; [exact Hc|].
  apply (run_workflow_false_alarm model_ready
           (model_says (py "Refractive Error - blurred vision")) (py "cough")
           empty_world (py "Refractive Error - blurred vision")).
  - vm_compute. discriminate.
  - reflexivity.
  - reflexivity.
  - vm_compute. discriminate.
  - left. exact Hc.
Defined.

Lemma get_user_input_clean_witness :
  stdin (mkWorld [py "  cough "] [] []) = [py "  cough "]
  /\ exists value lead tail,
       get_user_input (py "Enter patient symptoms: ") (mkWorld [py "  cough "] [] [])
       = (Ok value, mkWorld [] [py "Enter patient symptoms: "] [])
       /\ py "  cough " = lead ++ value ++ tail.
Proof.
  split; [reflexivity|].
  destruct (get_user_input_clean (py "Enter patient symptoms: ") (py "  cough ") []
              (mkWorld [py "  cough "] [] []) eq_refl)
    as (value & lead & tail & Hg & Hl & _).
  exists value, lead, tail. split; [exact Hg|exact Hl].
Defined.

Lemma main_eof_witness :
  (List.length [py "a"] < lines_needed (strip (py "5")))%nat
  /\ exists w',
       main model_ready (model_says (py "flu")) (mkWorld [py "5"; py "a"] [] [])
       = (Raise EOFError, w')
       /\ trace w' = [] /\ stdin w' = [].
Proof.
  assert ((List.length [py "a"] < lines_needed (strip (py "5")))%nat) as Hlen
    by (vm_compute; lia).
  split; [exact Hlen|].
  apply (main_eof model_ready (model_says (py "flu"))
           (mkWorld [py "5"; py "a"] [] [])).
  right. exists (py "5"), [py "a"]. split; [reflexivity|exact Hlen].
Defined.

Lemma main_blank_field_witness :
  menu_option (strip (py "5")) = Some (Single FollowUp)
  /\ forallb isspace (py " ") = true
  /\ exists w',
       main model_ready (model_says (py "flu"))
         (mkWorld [py "5"; py "a"; py " "; py "c"; py "d"] [] [])
       = (Ok tt, w')
       /\ exists before, stdout w' = before ++ [printed NO_OUTPUT].
Proof.
  split; [reflexivity|]. split; [reflexivity|].
  destruct (main_blank_field model_ready (model_says (py "flu"))
              (mkWorld [py "5"; py "a"; py " "; py "c"; py "d"] [] [])
              (py "5") [py "a"; py " "; py "c"; py "d"] FollowUp 1 (py " "))
    as (w' & Hmain & _ & Hout).
  - reflexivity.
  - reflexivity.
  - vm_compute. lia.
  - vm_compute. lia.
  - reflexivity.
  - reflexivity.
  - exists w'. split; [exact Hmain|exact Hout].
Defined.

Lemma main_full_blank_symptoms_witness :
  strip (py " 1") = py "1"
  /\ forallb isspace (py "  ") = true
  /\ trace (snd (main model_ready (model_says (py "flu"))
                   (mkWorld [py " 1"; py "  "] [] [])))
     = [EvInit GeneralDoctor (general_doctor_input [])].
Proof.
  split; [reflexivity|]. split; [reflexivity|].
  rewrite (main_full_blank_symptoms model_ready (model_says (py "flu"))
             (mkWorld [py " 1"; py "  "] [] []) (py " 1") (py "  ") []
             eq_refl eq_refl eq_refl).
  reflexivity.
Defined.

Lemma api_key_log_short_witness :
  load_api_key (Some (py "abcdef"))
  = Ok (py "abcdef", py "API Key loaded: abcd...cdef")
  /\ (List.length (py "abcdef") <= 8)%nat
  /\ py "abcdef"
     = slice_to 4 (py "abcdef")
       ++ drop (8 - List.length (py "abcdef")) (slice_last 4 (py "abcdef")).
Proof.
  assert (load_api_key (Some (py "abcdef"))
          = Ok (py "abcdef", py "API Key loaded: abcd...cdef")) as Hl
    by reflexivity.
  assert ((List.length (py "abcdef") <= 8)%nat) as Hn by (vm_compute; lia).
  split; [exact Hl|]. split; [exact Hn|].
  exact (proj2 (api_key_log_short _ _ _ Hl Hn)).
Defined.

Lemma run_workflow_every_stage_invokes_witness :
  (forall h, model_ready h = true)
  /\ py "cough" <> []
  /\ exists evs,
       trace (snd (run_workflow model_ready (model_raises Forbidden) (py "cough")
                     empty_world))
       = trace empty_world ++ evs
       /\ count_events is_invoke evs = 1%nat.
Proof.
  assert (forall h, model_ready h = true) as Hm by reflexivity.
  assert (py "cough" <> []) as Hs by (vm_compute; discriminate).
  split; [exact Hm|]. split; [exact Hs|].
  apply (run_workflow_every_stage_invokes model_ready (model_raises Forbidden)
           (py "cough") empty_world
           [(py "general_doctor", Some PERMISSION_SENTINEL)] _ Hm Hs).
  vm_compute. reflexivity.
Defined.

Lemma api_key_log_long_witness :
  load_api_key (Some (py "abcdefghijkl"))
  = Ok (py "abcdefghijkl", py "API Key loaded: abcd...ijkl")
  /\ (8 <= List.length (py "abcdefghijkl"))%nat
  /\ exists first hidden last,
       py "abcdefghijkl" = first ++ hidden ++ last
       /\ List.length first = 4%nat /\ List.length last = 4%nat
       /\ py "API Key loaded: abcd...ijkl"
          = py "API Key loaded: " ++ first ++ py "..." ++ last.
Proof.
  assert (load_api_key (Some (py "abcdefghijkl"))
          = Ok (py "abcdefghijkl", py "API Key loaded: abcd...ijkl")) as Hl
    by reflexivity.
  assert ((8 <= List.length (py "abcdefghijkl"))%nat) as Hn by (vm_compute; lia).
  split; [exact Hl|]. split; [exact Hn|].
  exact (api_key_log_long _ _ _ Hl Hn).
Defined.
